(** * nuoa-swe: the command-line utilities under [.github/skills]

    A shallow embedding of the four Python scripts

    - [nuoa-fix-opensearch/scripts/increase_version_of_table.py]
    - [nuoa-aws-cloudwatch/get_logs.py]
    - [nuoa-aws-cloudwatch/get_lambdas.py]
    - [aws-resource-detection/detect_aws_resources.py]

    and the properties their specification states about them.

    Conventions.  Python text is a Rocq [string] whose characters stand
    for the code points below 256.  Python integers are [Z].  A function
    that may raise returns a [result]; a function that prints or calls the
    remote service returns the lines printed and the calls issued, in
    order.  What the remote service answers is an input of the model: a
    script of the pages it yields, and, for writes, a state-passing
    operation. *)

From Stdlib Require Import ZArith String Ascii List Bool Lia.
From Stdlib Require Import Sorting.Sorted Sorting.Permutation.
From stdpp Require Import base option gmap strings list pretty sorting.

Set Warnings "-register-all".
#[local] Open Scope string_scope.
#[local] Open Scope list_scope.

(** * Python values, exceptions and built-ins *)

Module Py.

(** The payload of a [ValueError]: who raised it and about what. *)
Inductive value_error :=
| invalid_literal (text : string)      (* int(): invalid literal for int() with base 10 *)
| invalid_time_unit (unit : string).   (* get_logs.py, line 31 *)

Inductive exn :=
| KeyError (key : string)
| IndexError
| TypeError
| ValueError (why : value_error)
| OverflowError
| SystemExit (code : Z)
| NoCredentialsError
| ProfileNotFound (profile : string)
| EndpointConnectionError
| ClientError (code : string).

Inductive result (A : Type) :=
| Ok (a : A)
| Raise (e : exn).
Arguments Ok {A} a.
Arguments Raise {A} e.

Definition bind {A B} (r : result A) (k : A -> result B) : result B :=
  match r with
  | Ok a => k a
  | Raise e => Raise e
  end.

Declare Scope py_scope.
Delimit Scope py_scope with py.
Notation "x <- r ;; k" := (bind r (fun x => k))
  (at level 100, r at next level, right associativity) : py_scope.
#[local] Open Scope py_scope.

Definition is_ok {A} (r : result A) : bool :=
  match r with Ok _ => true | Raise _ => false end.

(** [except ClientError]: the botocore class of errors the service itself
    answers with (authorization, throttling, missing resource, ...). *)
Definition is_ClientError (e : exn) : bool :=
  match e with ClientError _ => true | _ => false end.

(** ** Text *)

Definition code (c : ascii) : N := N_of_ascii c.

(** [str.lower] on one character: A-Z, and the upper-case letters of the
    Latin-1 supplement (192-222, without the multiplication sign 215). *)
Definition lower_char (c : ascii) : ascii :=
  let n := code c in
  if ((65 <=? n) && (n <=? 90) || (192 <=? n) && (n <=? 222) && negb (n =? 215))%N
  then ascii_of_N (n + 32) else c.

Fixpoint lower (s : string) : string :=
  match s with
  | EmptyString => EmptyString
  | String c r => String (lower_char c) (lower r)
  end.

(** [needle in hay] on text. *)
Fixpoint contains (needle hay : string) : bool :=
  String.prefix needle hay ||
  match hay with
  | EmptyString => false
  | String _ r => contains needle r
  end.

(** Truth value of an optional text argument: [None] and [""] are false. *)
Definition truthy (o : option string) : bool :=
  match o with
  | None | Some EmptyString => false
  | Some _ => true
  end.

(** [s[-1]] and [s[:-1]]. *)
Fixpoint last_char (s : string) : option ascii :=
  match s with
  | EmptyString => None
  | String c EmptyString => Some c
  | String _ r => last_char r
  end.

Fixpoint but_last (s : string) : string :=
  match s with
  | EmptyString => EmptyString
  | String _ EmptyString => EmptyString
  | String c r => String c (but_last r)
  end.

(** ** [int()] *)

(** White space as [int()] skips it around a literal. *)
Definition is_space (c : ascii) : bool :=
  let n := code c in
  ((9 <=? n) && (n <=? 13) || (n =? 32) || (n =? 133) || (n =? 160))%N.

Definition digit_of (c : ascii) : option Z :=
  let n := code c in
  if ((48 <=? n) && (n <=? 57))%N then Some (Z.of_N n - 48)%Z else None.

Fixpoint skip_space (s : string) : string :=
  match s with
  | String c r => if is_space c then skip_space r else s
  | EmptyString => s
  end.

(** The digits after a first digit; one underscore may separate two
    digits.  Returns the number read and the text left. *)
Fixpoint int_digits (acc : Z) (s : string) : option (Z * string) :=
  match s with
  | EmptyString => Some (acc, s)
  | String c r =>
      match digit_of c with
      | Some d => int_digits (10 * acc + d) r
      | None =>
          if Ascii.eqb c "_" then
            match r with
            | String c' r' =>
                match digit_of c' with
                | Some d => int_digits (10 * acc + d) r'
                | None => None
                end
            | EmptyString => None
            end
          else Some (acc, s)
      end
  end.

(** [int(s)] for text, base 10: white space, an optional sign, digits,
    white space. *)
Definition int_of_str (s : string) : result Z :=
  let bad := Raise (ValueError (invalid_literal s)) in
  let s1 := skip_space s in
  let '(neg, s2) :=
    match s1 with
    | String "-" r => (true, r)
    | String "+" r => (false, r)
    | _ => (false, s1)
    end in
  match s2 with
  | EmptyString => bad
  | String c r =>
      match digit_of c with
      | None => bad
      | Some d =>
          match int_digits d r with
          | None => bad
          | Some (n, rest) =>
              match skip_space rest with
              | EmptyString => Ok (if neg : bool then - n else n)%Z
              | String _ _ => bad
              end
          end
      end
  end.

(** [int(Decimal)]: the number [c * 10^e], truncated towards zero. *)
Definition int_of_decimal (c e : Z) : Z :=
  if (0 <=? e)%Z then (c * 10 ^ e)%Z else Z.quot c (10 ^ (- e)).

(** ** Attribute values

    What the DynamoDB resource layer hands to Python for a stored
    attribute (null, boolean, number, text, binary, sets, list, map),
    and the Python [int] the updater writes back. *)
Inductive value :=
| VNull
| VBool (b : bool)
| VInt (z : Z)
| VDecimal (coefficient exponent : Z)
| VStr (s : string)
| VBinary (bytes : string)
| VSet (xs : list value)
| VList (xs : list value)
| VMap (m : gmap string value).

Definition int (v : value) : result Z :=
  match v with
  | VBool b => Ok (if b then 1 else 0)%Z
  | VInt z => Ok z
  | VDecimal c e => Ok (int_of_decimal c e)
  | VStr s => int_of_str s
  | VNull | VBinary _ | VSet _ | VList _ | VMap _ => Raise TypeError
  end.

(** ** [datetime]

    A [timedelta] is its length in microseconds; a naive [datetime] is
    the microseconds since [datetime.min], 0001-01-01 00:00:00.  Both
    have the ranges of the library: at most 999999999 days in magnitude
    for a duration, and up to 9999-12-31 23:59:59.999999 for a date. *)
Definition timedelta := Z.
Definition datetime := Z.

Definition us_per_minute : Z := 60000000%Z.
Definition us_per_hour : Z := 3600000000%Z.
Definition us_per_day : Z := 86400000000%Z.

Definition datetime_max : datetime := (3652059 * us_per_day - 1)%Z.

Definition mk_timedelta (us : Z) : result timedelta :=
  let days := (us / us_per_day)%Z in
  if ((-999999999 <=? days) && (days <=? 999999999))%Z then Ok us
  else Raise OverflowError.

Definition timedelta_minutes (n : Z) : result timedelta := mk_timedelta (n * us_per_minute)%Z.
Definition timedelta_hours (n : Z) : result timedelta := mk_timedelta (n * us_per_hour)%Z.
Definition timedelta_days (n : Z) : result timedelta := mk_timedelta (n * us_per_day)%Z.

(** [t - d] on a [datetime] and a [timedelta]. *)
Definition datetime_sub (t : datetime) (d : timedelta) : result datetime :=
  let r := (t - d)%Z in
  if ((0 <=? r) && (r <=? datetime_max))%Z then Ok r else Raise OverflowError.

(** ** Decimal numerals, to state what [int()] reads *)




End Py.

(** * increase_version_of_table.py *)

Module IncreaseVersionOfTable.
Import Py.
#[local] Open Scope py_scope.

(** A table row: attribute name to attribute value. *)
Abbreviation item := (gmap string value).

(** The keyword arguments of [table.put_item]. *)
Record put_request := {
  Item : item;
  ConditionExpression : string;
  ExpressionAttributeValues : gmap string value
}.

(** What successive [table.scan] calls answer: a response with [Items]
    and no [LastEvaluatedKey], a response with both, or an error. *)
Inductive scan_pages :=
| last_page (Items : list item)
| more_pages (Items : list item) (LastEvaluatedKey : item) (rest : scan_pages)
| scan_raises (e : exn).

(** The three [print] statements. *)
Inductive line :=
| print_update (it : item)          (* line 24 *)
| print_lock_failed (e : exn)       (* line 33 *)
| print_summary (count : nat).      (* line 36 *)

(** The command line, as the options given on it ([opt_dry_run] tells
    whether the flag [--dry-run] is there), and the namespace
    [parse_args] builds from it. *)
Record command_line := {
  opt_table_name : option string;
  opt_dry_run : bool;
  opt_aws_profile : option string
}.

Record namespace := {
  table_name : string;
  dry_run : bool;
  aws_profile : option string
}.

(** Lines 39-43.  [--table-name] is required: without it the parser
    exits with status 2.  [--dry-run] has [action='store_true'] and
    [default=False]: the attribute is [True] when the flag is given and
    [False] when it is not.  [--aws-profile] has [default=None]. *)
Definition parse_args (cl : command_line) : result namespace :=
  match opt_table_name cl with
  | None => Raise (SystemExit 2)
  | Some t =>
      Ok {| table_name := t;
            dry_run := match opt_dry_run cl with
                       | true => true      (* store_true *)
                       | false => false    (* default=False *)
                       end;
            aws_profile := opt_aws_profile cl |}
  end.

(** Line 17: [item['versionId'] = int(item['versionId']) + 1]. *)
Definition increment_version (it : item) : result item :=
  match it !! "versionId" with
  | None => Raise (KeyError "versionId")
  | Some v => n <- int v ;; Ok (<["versionId" := VInt (n + 1)]> it)
  end.

(** Lines 26-30, for a row whose version has been incremented already. *)
Definition conditional_put (it : item) : put_request :=
  {| Item := it;
     ConditionExpression := "versionId < :value";
     ExpressionAttributeValues :=
       match it !! "versionId" with
       | Some v => {[ ":value" := v ]}
       | None => ∅
       end |}.

Section Updater.
(** The remote table: its state, and what a [put_item] does to it. *)
Context {St : Type}.
Variable put_item : put_request -> St -> result unit * St.

(** The state of a run: the local counter, the remote table, and the
    calls and lines so far, oldest first. *)
Record state := {
  count : nat;
  remote : St;
  scans : list (option item);
  puts : list (put_request * result unit);
  stdout : list line
}.

Definition init (s0 : St) : state :=
  {| count := 0; remote := s0; scans := []; puts := []; stdout := [] |}.

Inductive outcome :=
| Returned (s : state)
| Raised (e : exn) (s : state).

Definition add_count (s : state) : state :=
  {| count := S (count s); remote := remote s; scans := scans s;
     puts := puts s; stdout := stdout s |}.

Definition print (l : line) (s : state) : state :=
  {| count := count s; remote := remote s; scans := scans s;
     puts := puts s; stdout := stdout s ++ [l] |}.

Definition log_scan (k : option item) (s : state) : state :=
  {| count := count s; remote := remote s; scans := scans s ++ [k];
     puts := puts s; stdout := stdout s |}.

(** Lines 25-33: the call, and the handler around it. *)
Definition try_put (it : item) (s : state) : state :=
  let req := conditional_put it in
  let '(r, st) := put_item req (remote s) in
  let s' := {| count := count s; remote := st; scans := scans s;
               puts := puts s ++ [(req, r)]; stdout := stdout s |} in
  match r with
  | Ok _ => add_count s'
  | Raise e => print (print_lock_failed e) s'
  end.

(** Lines 16-33: the loop over the rows of one page. *)
Fixpoint for_items (dry_run : bool) (items : list item) (s : state) : outcome :=
  match items with
  | [] => Returned s
  | it :: rest =>
      match increment_version it with
      | Raise e => Raised e s
      | Ok it' =>
          if dry_run then for_items dry_run rest (add_count s)
          else for_items dry_run rest (try_put it' (print (print_update it') s))
      end
  end.

(** Lines 14-35: the loop over the pages.  [key] is the
    [ExclusiveStartKey] of the next call. *)
Fixpoint while_pages (dry_run : bool) (pages : scan_pages) (key : option item)
    (s : state) : outcome :=
  match pages with
  | scan_raises e => Raised e (log_scan key s)
  | last_page items => for_items dry_run items (log_scan key s)
  | more_pages items k rest =>
      match for_items dry_run items (log_scan key s) with
      | Raised e s' => Raised e s'
      | Returned s' =>
          if dry_run then Returned s'
          else while_pages dry_run rest (Some k) s'
      end
  end.

(** The table a profile and a table name designate: what its scan
    yields and its state before the run. *)
Variable dynamodb : option string -> string -> scan_pages * St.

(** Lines 4-36.  [dry_run] is [None] when the caller leaves the
    parameter out. *)
Definition scan_and_update_table (table_name : string) (aws_profile : option string)
    (dry_run : option bool) : outcome :=
  let dry_run := default true dry_run in
  let '(pages, s0) := dynamodb aws_profile table_name in
  match while_pages dry_run pages None (init s0) with
  | Raised e s => Raised e s
  | Returned s => Returned (print (print_summary (count s)) s)
  end.

(** Lines 38-45. *)
Definition main (cl : command_line) : result outcome :=
  args <- parse_args cl ;;
  Ok (scan_and_update_table (table_name args) (aws_profile args) (Some (dry_run args))).

End Updater.

(** ** Notions used to state the properties *)

(** The version a row carries, as line 17 reads it. *)
Definition original_version (it : item) : result Z :=
  match it !! "versionId" with
  | None => Raise (KeyError "versionId")
  | Some v => int v
  end.

Definition has_version (it : item) : Prop :=
  exists n, original_version it = Ok n.

(** The request lines 26-30 issue for a row read at version [n]. *)
Definition request_for (it : item) (n : Z) : put_request :=
  {| Item := <["versionId" := VInt (n + 1)]> it;
     ConditionExpression := "versionId < :value";
     ExpressionAttributeValues := {[ ":value" := VInt (n + 1) ]} |}.

(** The rows a scan yields, page after page, up to a failing call. *)
Fixpoint rows_of (pages : scan_pages) : list item :=
  match pages with
  | last_page items => items
  | more_pages items _ rest => items ++ rows_of rest
  | scan_raises _ => []
  end.

Definition first_page (pages : scan_pages) : list item :=
  match pages with
  | last_page items | more_pages items _ _ => items
  | scan_raises _ => []
  end.

Fixpoint scan_succeeds (pages : scan_pages) : Prop :=
  match pages with
  | last_page _ => True
  | more_pages _ _ rest => scan_succeeds rest
  | scan_raises _ => False
  end.

(** The rows a run can reach: a dry run asks for one page. *)
Definition rows_scanned (dry_run : bool) (pages : scan_pages) : list item :=
  if dry_run then first_page pages else rows_of pages.

(** The rows before the first one whose version cannot be read. *)
Fixpoint rows_reached (rows : list item) : list item :=
  match rows with
  | [] => []
  | it :: rest => if is_ok (original_version it) then it :: rows_reached rest else []
  end.

Definition state_of {St} (o : @outcome St) : state :=
  match o with
  | Returned s | Raised _ s => s
  end.

(** Requests issued one after the other against the remote table. *)
Fixpoint put_all {St} (put_item : put_request -> St -> result unit * St)
    (reqs : list put_request) (st : St) : list (put_request * result unit) * St :=
  match reqs with
  | [] => ([], st)
  | req :: rest =>
      let '(r, st1) := put_item req st in
      let '(l, st2) := put_all put_item rest st1 in
      ((req, r) :: l, st2)
  end.

(** Of the puts issued, those that did not raise; and what lines 24 and
    33 print for them. *)
Definition committed (l : list (put_request * result unit)) : nat :=
  length (List.filter (fun p => is_ok (snd p)) l).

(** The requests for the readable rows among [rows], in order. *)
Fixpoint requests_for (rows : list item) : list put_request :=
  match rows with
  | [] => []
  | it :: rest =>
      match original_version it with
      | Ok n => request_for it n :: requests_for rest
      | Raise _ => requests_for rest
      end
  end.

Definition printed_for (l : list (put_request * result unit)) : list line :=
  flat_map (fun p => print_update (Item (fst p)) ::
                     match snd p with
                     | Ok _ => []
                     | Raise e => [print_lock_failed e]
                     end) l.

(** The error of the first row whose version cannot be read, and the
    error that ends a live run: such a row, or a failing scan call. *)
Fixpoint first_error (rows : list item) : option exn :=
  match rows with
  | [] => None
  | it :: rest =>
      match original_version it with
      | Ok _ => first_error rest
      | Raise e => Some e
      end
  end.

Fixpoint abort_of (pages : scan_pages) : option exn :=
  match pages with
  | last_page items => first_error items
  | more_pages items _ rest =>
      match first_error items with
      | Some e => Some e
      | None => abort_of rest
      end
  | scan_raises e => Some e
  end.

(** The [ExclusiveStartKey] of each scan call of a live run. *)
Fixpoint scan_calls (pages : scan_pages) (key : option item) : list (option item) :=
  match pages with
  | last_page _ | scan_raises _ => [key]
  | more_pages items k rest =>
      key :: match first_error items with
             | None => scan_calls rest (Some k)
             | Some _ => []
             end
  end.

(** ** A reference table

    The service's side of a conditional put, for a table whose key is
    the text attribute [id]: the condition [versionId < :value] is
    evaluated on the row stored under the key of the new row, numbers
    being compared as numbers; a row that is absent, or whose version is
    not a number, fails it. *)
Definition number (v : value) : option (Z * Z) :=
  match v with
  | VInt z => Some (z, 0%Z)
  | VDecimal c e => Some (c, e)
  | _ => None
  end.

Definition number_lt (a b : Z * Z) : bool :=
  let m := Z.min (snd a) (snd b) in
  (fst a * 10 ^ (snd a - m) <? fst b * 10 ^ (snd b - m))%Z.

Definition condition_holds (req : put_request) (stored : item) : bool :=
  match stored !! "versionId" ≫= number,
        ExpressionAttributeValues req !! ":value" ≫= number with
  | Some a, Some b => number_lt a b
  | _, _ => false
  end.

Definition key_of (it : item) : option string :=
  match it !! "id" with
  | Some (VStr k) => Some k
  | _ => None
  end.

Definition reference_put_item (req : put_request) (st : gmap string item)
    : result unit * gmap string item :=
  match key_of (Item req) with
  | None => (Raise (ClientError "ValidationException"), st)
  | Some k =>
      if negb (String.eqb (ConditionExpression req) "versionId < :value")
      then (Raise (ClientError "ValidationException"), st)
      else
        match st !! k with
        | Some stored =>
            if condition_holds req stored then (Ok tt, <[k := Item req]> st)
            else (Raise (ClientError "ConditionalCheckFailedException"), st)
        | None => (Raise (ClientError "ConditionalCheckFailedException"), st)
        end
  end.

(** A row of the reference table as a scan returns it. *)
Definition row (key : string) (version : Z) : item :=
  {[ "id" := VStr key; "versionId" := VDecimal version 0 ]}.

(** ** Example tables

    [two_pages]: a scan of two pages of ten rows each.  [three_rows]:
    rows A, B and C, all read at version 1, while the table holds B at
    version 7 by the time the run writes (another writer got there
    first). *)
Definition ten_rows (prefix : string) : list item :=
  map (fun i : nat => row (prefix +:+ pretty i) 1) (seq 0 10).

Definition two_pages : scan_pages :=
  more_pages (ten_rows "a") (row "a9" 1) (last_page (ten_rows "b")).

Definition three_rows : scan_pages :=
  last_page [row "A" 1; row "B" 1; row "C" 1].

Definition three_rows_stored : gmap string item :=
  {[ "A" := row "A" 1; "B" := row "B" 7; "C" := row "C" 1 ]}.

Definition example_dynamodb (aws_profile : option string) (table_name : string)
    : scan_pages * gmap string item :=
  if String.eqb table_name "two_pages" then (two_pages, ∅)
  else if String.eqb table_name "three_rows" then (three_rows, three_rows_stored)
  else (scan_raises (ClientError "ResourceNotFoundException"), ∅).

(** A table whose second row has no [versionId]. *)
Definition broken_rows : list item :=
  [row "A" 1; {[ "id" := VStr "B" ]}; row "C" 1].

(** The [LastEvaluatedKey] of each response that has one, in order. *)
Fixpoint cursors (pages : scan_pages) : list item :=
  match pages with
  | last_page _ | scan_raises _ => []
  | more_pages _ k rest => k :: cursors rest
  end.

(** Three pages with distinct cursors. *)
Definition three_pages : scan_pages :=
  more_pages [row "A" 1] (row "A" 1)
    (more_pages [row "B" 1; row "C" 1] (row "C" 1) (last_page [row "D" 1])).

End IncreaseVersionOfTable.


(** * get_logs.py *)

Module GetLogs.
Import Py.
#[local] Open Scope py_scope.

(** Lines 19-31. *)
Definition parse_time_range (time_str : string) : result timedelta :=
  match last_char time_str with
  | None => Raise IndexError
  | Some c =>
      let unit := lower (String c EmptyString) in
      value <- int_of_str (but_last time_str) ;;
      if String.eqb unit "m" then timedelta_minutes value
      else if String.eqb unit "h" then timedelta_hours value
      else if String.eqb unit "d" then timedelta_days value
      else Raise (ValueError (invalid_time_unit unit))
  end.

(** A log event, with the two fields the script reads. *)
Record log_event := {
  timestamp : Z;
  message : string
}.

(** The keyword arguments of [filter_log_events]. *)
Record kwargs := {
  logGroupName : string;
  startTime : Z;
  endTime : Z;
  limit : Z;
  nextToken : option string
}.

(** What successive [filter_log_events] calls answer: a response without
    [nextToken], a response with one, or an error.  [events] is [None]
    when the response has no such key. *)
Inductive log_pages :=
| final_page (events : option (list log_event))
| next_page (events : option (list log_event)) (nextToken : string) (rest : log_pages)
| call_raises (e : exn).

(** What a run depends on besides its arguments. *)
Record world := {
  profile_exists : string -> bool;       (* the local credential-profile store *)
  utcnow : datetime;                     (* the clock *)
  epoch_ms : datetime -> Z;              (* int(t.timestamp() * 1000) *)
  log_group : string -> log_pages        (* the log store, by log group name *)
}.

(** The [print] statements, by line. *)
Inductive line :=
| print_fetching (function_name profile_name : string)                   (* 44 *)
| print_time_range (time_range : string) (start_time end_time : datetime) (* 45 *)
| print_found (n : nat)                                                  (* 68 *)
| print_rule                                                             (* 69, 73 *)
| print_event (ev : log_event)                                           (* 72 *)
| print_no_events                                                        (* 75 *)
| print_no_credentials (profile_name : string)                           (* 80 *)
| print_configure                                                        (* 81 *)
| print_log_group_not_found (log_group_name : string)                    (* 86 *)
| print_check_name                                                       (* 87 *)
| print_aws_error (e : exn)                                              (* 89 *)
| print_error (e : exn)                                                  (* 92 *)
| print_unexpected (e : exn).                                            (* 95 *)

Definition set_nextToken (tok : string) (kw : kwargs) : kwargs :=
  {| logGroupName := logGroupName kw; startTime := startTime kw;
     endTime := endTime kw; limit := limit kw; nextToken := Some tok |}.

(** Lines 58-65.  Returns the calls issued, oldest first, and the
    accumulated events or the error of the failing call. *)
Fixpoint fetch (pages : log_pages) (kw : kwargs) (events : list log_event)
    : list kwargs * result (list log_event) :=
  match pages with
  | call_raises e => ([kw], Raise e)
  | final_page evs => ([kw], Ok (events ++ default [] evs))
  | next_page evs next_token rest =>
      let events := events ++ default [] evs in
      if negb (truthy (Some next_token)) || (100 <=? length events)%nat
      then ([kw], Ok events)
      else
        let '(calls, r) := fetch rest (set_nextToken next_token kw) events in
        (kw :: calls, r)
  end.

(** Lines 67-75. *)
Definition report (events : list log_event) : list line :=
  match events with
  | [] => [print_no_events]
  | _ :: _ =>
      [print_found (length events); print_rule]
        ++ map print_event (firstn 100 events) ++ [print_rule]
  end.

(** Lines 79-96, the handlers. *)
Definition handler (profile_name log_group_name : string) (e : exn) : list line :=
  match e with
  | NoCredentialsError => [print_no_credentials profile_name; print_configure]
  | ClientError code =>
      if String.eqb code "ResourceNotFoundException"
      then [print_log_group_not_found log_group_name; print_check_name]
      else [print_aws_error e]
  | ValueError _ => [print_error e]
  | _ => [print_unexpected e]
  end.

(** What a call of [get_logs] does and returns. *)
Record run := {
  returned : list log_event;
  stdout : list line;
  calls : list kwargs
}.

(** Lines 36-77, the body of the [try]. *)
Definition body (w : world) (profile_name function_name time_range : string)
    : list line * list kwargs * result (list log_event) :=
  if negb (profile_exists w profile_name)
  then ([], [], Raise (ProfileNotFound profile_name))
  else
    let log_group_name := "/aws/lambda/" +:+ function_name in
    let end_time := utcnow w in
    match d <- parse_time_range time_range ;; datetime_sub end_time d with
    | Raise e => ([], [], Raise e)
    | Ok start_time =>
        let out := [print_fetching function_name profile_name;
                    print_time_range time_range start_time end_time] in
        let start_ms := epoch_ms w start_time in
        let end_ms := epoch_ms w end_time in
        let kw := {| logGroupName := log_group_name; startTime := start_ms;
                     endTime := end_ms; limit := 100; nextToken := None |} in
        match fetch (log_group w log_group_name) kw [] with
        | (calls, Raise e) => (out, calls, Raise e)
        | (calls, Ok events) => (out ++ report events, calls, Ok events)
        end
    end.

(** Lines 34-96. *)
Definition get_logs (w : world) (profile_name function_name time_range : string) : run :=
  match body w profile_name function_name time_range with
  | (out, calls, Ok events) =>
      {| returned := events; stdout := out; calls := calls |}
  | (out, calls, Raise e) =>
      {| returned := [];
         stdout := out ++ handler profile_name ("/aws/lambda/" +:+ function_name) e;
         calls := calls |}
  end.

(** ** Notions used to state the properties *)


(** The durations a [timedelta] can hold. *)
Definition timedelta_range (us : Z) : Prop :=
  (-999999999 * us_per_day <= us < 1000000000 * us_per_day)%Z.

Definition is_print_event (l : line) : bool :=
  match l with
  | print_event _ => true
  | _ => false
  end.

(** Every page of the script holds at most [n] events, as a service that
    honours [limit] answers. *)
Fixpoint pages_within (n : nat) (pages : log_pages) : Prop :=
  match pages with
  | final_page evs => length (default [] evs) <= n
  | next_page evs _ rest => length (default [] evs) <= n /\ pages_within n rest
  | call_raises _ => True
  end.

(** ** Example log stores *)

Definition some_events (first n : nat) : list log_event :=
  map (fun i : nat => {| timestamp := Z.of_nat i; message := "event " +:+ pretty i |})
      (seq first n).

(** Two pages of 60 events each. *)
Definition two_pages_of_60 : log_pages :=
  next_page (Some (some_events 0 60)) "t1" (final_page (Some (some_events 60 60))).

(** 250 events on three pages, 100, 100 and 50. *)
Definition three_pages_of_250 : log_pages :=
  next_page (Some (some_events 0 100)) "t1"
    (next_page (Some (some_events 100 100)) "t2"
       (final_page (Some (some_events 200 50)))).

(** 250 events on three pages, 75, 100 and 75. *)
Definition three_uneven_pages_of_250 : log_pages :=
  next_page (Some (some_events 0 75)) "t1"
    (next_page (Some (some_events 75 100)) "t2"
       (final_page (Some (some_events 175 75)))).

(** A world with the profile [nuoa], the clock at 2026-11-04 12:00:00
    and one log group; the epoch is day 719162 of the calendar. *)
Definition example_world (pages : log_pages) : world :=
  {| profile_exists := fun p => String.eqb p "nuoa";
     utcnow := 63929390400000000%Z;
     epoch_ms := fun t => ((t - 62135596800000000) / 1000)%Z;
     log_group := fun g =>
       if String.eqb g "/aws/lambda/Report-beta-api" then pages
       else call_raises (ClientError "ResourceNotFoundException") |}.

(** The events a script holds, page after page, up to a failing call;
    the tokens of its responses; and whether every call is answered. *)
Fixpoint all_events (pages : log_pages) : list log_event :=
  match pages with
  | final_page evs => default [] evs
  | next_page evs _ rest => default [] evs ++ all_events rest
  | call_raises _ => []
  end.

Fixpoint tokens (pages : log_pages) : list string :=
  match pages with
  | next_page _ tok rest => tok :: tokens rest
  | final_page _ | call_raises _ => []
  end.


(** A script of pages with tokens, the call after them failing with [e]. *)
Fixpoint then_raises (good : list (option (list log_event) * string)) (e : exn)
    : log_pages :=
  match good with
  | [] => call_raises e
  | (evs, tok) :: rest => next_page evs tok (then_raises rest e)
  end.


Definition fails_on_third_call (e : exn) : log_pages :=
  then_raises [(Some (some_events 0 25), "t1"); (Some (some_events 25 25), "t2")] e.

End GetLogs.


(** * get_lambdas.py *)

Module GetLambdas.
Import Py.
#[local] Open Scope py_scope.

(** An entry of [page['Functions']], with the one field the script reads. *)
Record function := {
  FunctionName : string
}.

(** What the [list_functions] paginator yields: pages, then the end or
    an error. *)
Inductive pages :=
| no_more_pages
| page (Functions : list function) (rest : pages)
| page_raises (e : exn).

Record world := {
  profile_exists : string -> bool;
  list_functions : pages
}.

(** The [print] statements, by line. *)
Inductive line :=
| print_fetching (profile_name : string)         (* 23 *)
| print_found (n : nat)                          (* 41 *)
| print_function (func : string)                 (* 43: two spaces, a bullet, the name *)
| print_no_functions                             (* 45: No Lambda functions found matching the criteria. *)
| print_no_credentials (profile_name : string)   (* 50 *)
| print_configure                                (* 51 *)
| print_aws_error (e : exn)                      (* 54 *)
| print_unexpected (e : exn).                    (* 57 *)

(** Lines 33 and 35: the condition of each [continue]. *)
Definition skips (filter : option string) (func_name : string) : bool :=
  match filter with
  | Some f => truthy filter && negb (contains (lower f) (lower func_name))
  | None => false
  end.

(** Lines 29-38. *)
Fixpoint for_functions (domain stage : option string) (funcs : list function)
    (functions : list string) : list string :=
  match funcs with
  | [] => functions
  | func :: rest =>
      let func_name := FunctionName func in
      if skips domain func_name then for_functions domain stage rest functions
      else if skips stage func_name then for_functions domain stage rest functions
      else for_functions domain stage rest (functions ++ [func_name])
  end.

(** Lines 28-38. *)
Fixpoint for_pages (domain stage : option string) (ps : pages)
    (functions : list string) : result (list string) :=
  match ps with
  | no_more_pages => Ok functions
  | page_raises e => Raise e
  | page funcs rest => for_pages domain stage rest (for_functions domain stage funcs functions)
  end.

(** [sorted] on a list of text: text is ordered by code points. *)
Definition sorted (l : list string) : list string := merge_sort String.le l.

(** Lines 40-45. *)
Definition report (functions : list string) : list line :=
  match functions with
  | [] => [print_no_functions]
  | _ :: _ => print_found (length functions) :: map print_function (sorted functions)
  end.

(** Lines 49-58, the handlers. *)
Definition handler (profile_name : string) (e : exn) : list line :=
  match e with
  | NoCredentialsError => [print_no_credentials profile_name; print_configure]
  | ClientError _ => [print_aws_error e]
  | _ => [print_unexpected e]
  end.

Record run := {
  returned : list string;
  stdout : list line
}.

(** Lines 18-58.  [domain] and [stage] are [None] when left out. *)
Definition get_lambdas (w : world) (profile_name : string) (domain stage : option string) : run :=
  if negb (profile_exists w profile_name)
  then {| returned := []; stdout := handler profile_name (ProfileNotFound profile_name) |}
  else
    match for_pages domain stage (list_functions w) [] with
    | Ok functions =>
        {| returned := functions;
           stdout := print_fetching profile_name :: report functions |}
    | Raise e =>
        {| returned := [];
           stdout := print_fetching profile_name :: handler profile_name e |}
    end.

(** ** Notions used to state the properties *)

(** Two texts that differ in the case of their letters at most. *)
Inductive same_ignoring_case : string -> string -> Prop :=
| same_empty : same_ignoring_case EmptyString EmptyString
| same_char (c1 c2 : ascii) (s1 s2 : string) :
    lower_char c1 = lower_char c2 ->
    same_ignoring_case s1 s2 ->
    same_ignoring_case (String c1 s1) (String c2 s2).

(** [f] is a case-insensitive substring of [name]: some stretch of
    [name] is [f] up to the case of its letters. *)
Definition ci_substring (f name : string) : Prop :=
  exists before stretch after,
    name = before +:+ stretch +:+ after /\ same_ignoring_case f stretch.

(** Every filter that is supplied is a case-insensitive substring. *)
Definition passes (domain stage : option string) (name : string) : Prop :=
  (forall f, domain = Some f -> ci_substring f name)
  /\ (forall f, stage = Some f -> ci_substring f name).

(** The names the paginator yields, in order, when it does not fail. *)
Fixpoint names_of (ps : pages) : list string :=
  match ps with
  | no_more_pages | page_raises _ => []
  | page funcs rest => map FunctionName funcs ++ names_of rest
  end.

Fixpoint listing_succeeds (ps : pages) : Prop :=
  match ps with
  | no_more_pages => True
  | page _ rest => listing_succeeds rest
  | page_raises _ => False
  end.

(** A name is kept when neither test of lines 33 and 35 skips it. *)
Definition kept (domain stage : option string) (name : string) : bool :=
  negb (skips domain name) && negb (skips stage name).

(** ** Example listings *)

Definition two_functions : pages :=
  page [ {| FunctionName := "ReportMgmt-beta-api" |};
         {| FunctionName := "ActivityMgmt-prod-api" |} ] no_more_pages.

Definition unsorted_functions : pages :=
  page [ {| FunctionName := "report-b" |}; {| FunctionName := "Report-a" |} ]
    (page [ {| FunctionName := "activity" |}; {| FunctionName := "report" |} ]
       no_more_pages).

Definition example_world (ps : pages) : world :=
  {| profile_exists := fun p => String.eqb p "nuoa"; list_functions := ps |}.

(** The error that ends the listing, if one does. *)
Fixpoint failure (ps : pages) : option exn :=
  match ps with
  | no_more_pages => None
  | page _ rest => failure rest
  | page_raises e => Some e
  end.

Definition is_print_function (l : line) : bool :=
  match l with
  | print_function _ => true
  | _ => false
  end.

(** A listing whose second page fails. *)
Definition second_page_fails (e : exn) : pages :=
  page [ {| FunctionName := "ReportMgmt-beta-api" |} ] (page_raises e).

End GetLambdas.


(** * detect_aws_resources.py *)

Module DetectAwsResources.
Import Py.
#[local] Open Scope py_scope.

(** A time stamp of a response, by the text [isoformat()] gives for it. *)
Record aws_datetime := {
  isoformat : string
}.

(** The entries of the listing responses, with the fields the script
    reads; a field read with [.get] is optional. *)
Record function := {
  FunctionName : string;
  Runtime : option string;
  FunctionArn : string;
  LastModified : string
}.

Record bucket := {
  Name : string;
  CreationDate : aws_datetime
}.

Record table_description := {
  TableStatus : option string;
  ItemCount : option Z;
  TableSizeBytes : option Z
}.

Record stack_summary := {
  StackName : string;
  StackStatus : string;
  CreationTime : aws_datetime
}.

Record rest_api := {
  name : string;
  id : string;
  createdDate : option aws_datetime
}.

(** A resource record: field name to text, number or time stamp, in the
    order of the dictionary display. *)
Inductive field :=
| FStr (s : string)
| FInt (z : Z)
| FTime (t : aws_datetime).

Definition resource := list (string * field).

(** The detector's session: what each remote call answers.  A listing is
    [None] when the response lacks the key the script reads with [.get]. *)
Record detector := {
  list_functions : result (option (list function));
  list_buckets : result (option (list bucket));
  list_tables : result (option (list string));
  describe_table : string -> result table_description;
  list_stacks : list string -> result (option (list stack_summary));
  get_rest_apis : result (option (list rest_api))
}.

(** The [print] statements of the enumerators, by line. *)
Inductive line :=
| print_lambda_error (e : exn)           (* 45 *)
| print_s3_error (e : exn)               (* 63 *)
| print_dynamodb_error (e : exn)         (* 89 *)
| print_cloudformation_error (e : exn)   (* 113 *)
| print_apigateway_error (e : exn).      (* 132 *)

(** A method prints and then returns or raises. *)
Definition io (A : Type) : Type := list line * result A.

(** [try: ... except ClientError as e: print(...); return []] *)
Definition except_ClientError (r : result (list resource)) (msg : exn -> line)
    : io (list resource) :=
  match r with
  | Ok v => ([], Ok v)
  | Raise e => if is_ClientError e then ([msg e], Ok []) else ([], Raise e)
  end.

(** Lines 28-46. *)
Definition detect_lambda_functions (self : detector) : io (list resource) :=
  except_ClientError
    (response <- list_functions self ;;
     Ok (map (fun func =>
                [("name", FStr (FunctionName func));
                 ("runtime", FStr (default "N/A" (Runtime func)));
                 ("arn", FStr (FunctionArn func));
                 ("last_modified", FStr (LastModified func))])
             (default [] response)))
    print_lambda_error.

(** Lines 48-64. *)
Definition detect_s3_buckets (self : detector) : io (list resource) :=
  except_ClientError
    (response <- list_buckets self ;;
     Ok (map (fun bucket =>
                [("name", FStr (Name bucket));
                 ("creation_date", FStr (isoformat (CreationDate bucket)))])
             (default [] response)))
    print_s3_error.

(** Lines 73-85: the loop over the table names, with its own handler. *)
Fixpoint for_table_names (self : detector) (names : list string) (tables : list resource)
    : result (list resource) :=
  match names with
  | [] => Ok tables
  | table_name :: rest =>
      match describe_table self table_name with
      | Ok table =>
          for_table_names self rest
            (tables ++ [[("name", FStr table_name);
                         ("status", FStr (default "N/A" (TableStatus table)));
                         ("item_count", FInt (default 0%Z (ItemCount table)));
                         ("size_bytes", FInt (default 0%Z (TableSizeBytes table)))]])
      | Raise e =>
          if is_ClientError e
          then for_table_names self rest
                 (tables ++ [[("name", FStr table_name); ("status", FStr "Unknown")]])
          else Raise e
      end
  end.

(** Lines 66-90. *)
Definition detect_dynamodb_tables (self : detector) : io (list resource) :=
  except_ClientError
    (response <- list_tables self ;;
     for_table_names self (default [] response) [])
    print_dynamodb_error.

(** Lines 97-100. *)
Definition StackStatusFilter : list string :=
  ["CREATE_COMPLETE"; "UPDATE_COMPLETE"; "UPDATE_ROLLBACK_COMPLETE";
   "IMPORT_COMPLETE"; "IMPORT_ROLLBACK_COMPLETE"].

(** Lines 92-114. *)
Definition detect_cloudformation_stacks (self : detector) : io (list resource) :=
  except_ClientError
    (response <- list_stacks self StackStatusFilter ;;
     Ok (map (fun stack =>
                [("name", FStr (StackName stack));
                 ("status", FStr (StackStatus stack));
                 ("creation_time", FStr (isoformat (CreationTime stack)))])
             (default [] response)))
    print_cloudformation_error.

(** Lines 116-133. *)
Definition detect_api_gateways (self : detector) : io (list resource) :=
  except_ClientError
    (response <- get_rest_apis self ;;
     Ok (map (fun api =>
                [("name", FStr (name api));
                 ("id", FStr (id api));
                 ("created_date",
                  match createdDate api with Some t => FTime t | None => FStr "N/A" end)])
             (default [] response)))
    print_apigateway_error.

(** Sequencing of two methods: the second runs when the first returned. *)
Definition and_then {A B} (m : io A) (k : A -> io B) : io B :=
  match m with
  | (out, Raise e) => (out, Raise e)
  | (out, Ok a) => let '(out', r) := k a in (out ++ out', r)
  end.

(** Lines 135-143: the dictionary display, evaluated entry by entry. *)
Definition detect_all_resources (self : detector) : io (list (string * list resource)) :=
  and_then (detect_lambda_functions self) (fun lambda_functions =>
  and_then (detect_s3_buckets self) (fun s3_buckets =>
  and_then (detect_dynamodb_tables self) (fun dynamodb_tables =>
  and_then (detect_cloudformation_stacks self) (fun cloudformation_stacks =>
  and_then (detect_api_gateways self) (fun api_gateways =>
  ([], Ok [("lambda_functions", lambda_functions);
           ("s3_buckets", s3_buckets);
           ("dynamodb_tables", dynamodb_tables);
           ("cloudformation_stacks", cloudformation_stacks);
           ("api_gateways", api_gateways)])))))).

(** ** Notions used to state the properties *)

(** The five resource kinds, in the order of the aggregate. *)
Inductive kind :=
| lambda_functions
| s3_buckets
| dynamodb_tables
| cloudformation_stacks
| api_gateways.

#[global] Instance kind_eq_dec : EqDecision kind.
Proof. solve_decision. Defined.


Definition key (k : kind) : string :=
  match k with
  | lambda_functions => "lambda_functions"
  | s3_buckets => "s3_buckets"
  | dynamodb_tables => "dynamodb_tables"
  | cloudformation_stacks => "cloudformation_stacks"
  | api_gateways => "api_gateways"
  end.

(** The enumerator of a kind. *)
Definition detect (k : kind) (self : detector) : io (list resource) :=
  match k with
  | lambda_functions => detect_lambda_functions self
  | s3_buckets => detect_s3_buckets self
  | dynamodb_tables => detect_dynamodb_tables self
  | cloudformation_stacks => detect_cloudformation_stacks self
  | api_gateways => detect_api_gateways self
  end.

(** The error the listing call of a kind raises, if it raises. *)
Definition error_of {A} (r : result A) : option exn :=
  match r with
  | Ok _ => None
  | Raise e => Some e
  end.

Definition listing_error (self : detector) (k : kind) : option exn :=
  match k with
  | lambda_functions => error_of (list_functions self)
  | s3_buckets => error_of (list_buckets self)
  | dynamodb_tables => error_of (list_tables self)
  | cloudformation_stacks => error_of (list_stacks self StackStatusFilter)
  | api_gateways => error_of (get_rest_apis self)
  end.

(** ** Example accounts *)

(** An account with one resource of each kind, two tables. *)
Definition example_account : detector :=
  {| list_functions :=
       Ok (Some [ {| FunctionName := "ReportMgmt-beta-api"; Runtime := Some "python3.12";
                     FunctionArn := "arn:aws:lambda:ap-southeast-1:1:function:ReportMgmt-beta-api";
                     LastModified := "2026-01-01T00:00:00.000+0000" |} ]);
     list_buckets :=
       Ok (Some [ {| Name := "nuoa-reports";
                     CreationDate := {| isoformat := "2025-06-01T08:00:00+00:00" |} |} ]);
     list_tables := Ok (Some ["Activity"; "Secret"]);
     describe_table := fun t =>
       if String.eqb t "Activity"
       then Ok {| TableStatus := Some "ACTIVE"; ItemCount := Some 20%Z;
                  TableSizeBytes := None |}
       else Raise (ClientError "AccessDeniedException");
     list_stacks := fun _ =>
       Ok (Some [ {| StackName := "nuoa-core"; StackStatus := "UPDATE_COMPLETE";
                     CreationTime := {| isoformat := "2025-05-01T08:00:00+00:00" |} |} ]);
     get_rest_apis :=
       Ok (Some [ {| name := "nuoa-api"; id := "a1b2c3"; createdDate := None |} ]) |}.

(** The same account when one listing call fails with [e]. *)
Definition failing (k : kind) (e : exn) : detector :=
  {| list_functions :=
       if decide (k = lambda_functions) then Raise e else list_functions example_account;
     list_buckets :=
       if decide (k = s3_buckets) then Raise e else list_buckets example_account;
     list_tables :=
       if decide (k = dynamodb_tables) then Raise e else list_tables example_account;
     describe_table := describe_table example_account;
     list_stacks := fun f =>
       if decide (k = cloudformation_stacks) then Raise e else list_stacks example_account f;
     get_rest_apis :=
       if decide (k = api_gateways) then Raise e else get_rest_apis example_account |}.

(** What the enumerator of a kind returns, the empty list if it raises. *)
Definition found (self : detector) (k : kind) : list resource :=
  match (detect k self).2 with
  | Ok r => r
  | Raise _ => []
  end.

(** ** The report and the entry point *)

(** What [boto3.Session] resolves a profile and a region to: the
    account its clients reach and the region of the session. *)
Record aws_session := {
  account : detector;
  region_name : option string
}.

(** [self], as lines 25-26 set it. *)
Record instance := {
  session : detector;
  region : option string
}.

(** Lines 17-26: [self.region = region or self.session.region_name]. *)
Definition AWSResourceDetector
    (Session : option string -> option string -> result aws_session)
    (profile region : option string) : result instance :=
  s <- Session profile region ;;
  Ok {| session := account s;
        region := if truthy region then region else region_name s |}.

(** The [print] statements of [print_resources], by line.  Line 152
    shows the resource type in capitals, its underscores as blanks. *)
Inductive report_line :=
| print_banner                                     (* 147, 149 *)
| print_region (region : option string)            (* 148 *)
| print_kind (resource_type : string) (n : nat)    (* 152 *)
| print_dashes                                     (* 153 *)
| print_no_resources                               (* 156 *)
| print_item (idx : nat) (name : field)            (* 160 *)
| print_field (key : string) (value : field).      (* 163 *)

(** [item.get(key)] on a record. *)
Fixpoint get (key : string) (item : resource) : option field :=
  match item with
  | [] => None
  | (k, v) :: rest => if String.eqb k key then Some v else get key rest
  end.

(** Lines 160-163, for one item. *)
Definition print_one (idx : nat) (item : resource) : list report_line :=
  print_item idx (default (FStr "N/A") (get "name" item))
    :: flat_map (fun kv => if negb (String.eqb kv.1 "name")
                           then [print_field kv.1 kv.2] else []) item.

(** Lines 159-163: [for idx, item in enumerate(items, 1)]. *)
Fixpoint for_enumerate (idx : nat) (items : list resource) : list report_line :=
  match items with
  | [] => []
  | item :: rest => print_one idx item ++ for_enumerate (S idx) rest
  end.

(** Lines 145-163. *)
Definition print_resources (self : instance) (resources : list (string * list resource))
    : list report_line :=
  [print_banner; print_region (region self); print_banner]
    ++ flat_map (fun entry =>
                   [print_kind entry.1 (length entry.2); print_dashes]
                     ++ match entry.2 with
                        | [] => [print_no_resources]
                        | _ :: _ => for_enumerate 1 entry.2
                        end) resources.

(** The choices of [--service], and the arguments after parsing;
    [service] is [service_all] when the option is left out. *)
Inductive service :=
| service_lambda
| service_s3
| service_dynamodb
| service_cloudformation
| service_apigateway
| service_all.

Definition service_name (s : service) : string :=
  match s with
  | service_lambda => "lambda"
  | service_s3 => "s3"
  | service_dynamodb => "dynamodb"
  | service_cloudformation => "cloudformation"
  | service_apigateway => "apigateway"
  | service_all => "all"
  end.

Record arguments := {
  arg_profile : option string;
  arg_region : option string;
  arg_service : service
}.

(** Lines 209-215: the dictionary display, evaluated entry by entry. *)
Definition service_map (self : detector)
    : io (list (string * (string * list resource))) :=
  and_then (detect_lambda_functions self) (fun lambda_functions =>
  and_then (detect_s3_buckets self) (fun s3_buckets =>
  and_then (detect_dynamodb_tables self) (fun dynamodb_tables =>
  and_then (detect_cloudformation_stacks self) (fun cloudformation_stacks =>
  and_then (detect_api_gateways self) (fun api_gateways =>
  ([], Ok [("lambda", ("lambda_functions", lambda_functions));
           ("s3", ("s3_buckets", s3_buckets));
           ("dynamodb", ("dynamodb_tables", dynamodb_tables));
           ("cloudformation", ("cloudformation_stacks", cloudformation_stacks));
           ("apigateway", ("api_gateways", api_gateways))])))))).

(** [service_map[key]]. *)
Fixpoint getitem {A} (key : string) (d : list (string * A)) : result A :=
  match d with
  | [] => Raise (KeyError key)
  | (k, v) :: rest => if String.eqb k key then Ok v else getitem key rest
  end.

(** What [main] prints: the lines of the enumerators, those of the
    report, and those of its own handlers. *)
Inductive printed :=
| by_enumerator (l : line)
| by_report (l : report_line)
| print_no_credentials                 (* 223 *)
| print_profile_not_found (e : exn)    (* 226 *)
| print_unexpected (e : exn).          (* 229 *)

(** Lines 203-218, the body of the [try]. *)
Definition main_body (Session : option string -> option string -> result aws_session)
    (args : arguments) : list printed * result unit :=
  match AWSResourceDetector Session (arg_profile args) (arg_region args) with
  | Raise e => ([], Raise e)
  | Ok detector =>
      match arg_service args with
      | service_all =>
          match detect_all_resources (session detector) with
          | (out, Raise e) => (map by_enumerator out, Raise e)
          | (out, Ok resources) =>
              (map by_enumerator out
                 ++ map by_report (print_resources detector resources), Ok tt)
          end
      | chosen =>
          match service_map (session detector) with
          | (out, Raise e) => (map by_enumerator out, Raise e)
          | (out, Ok entries) =>
              match getitem (service_name chosen) entries with
              | Raise e => (map by_enumerator out, Raise e)
              | Ok (resource_type, items) =>
                  (map by_enumerator out
                     ++ map by_report (print_resources detector [(resource_type, items)]),
                   Ok tt)
              end
          end
      end
  end.

(** Lines 166-230: what is printed, and the exit status. *)
Definition main (Session : option string -> option string -> result aws_session)
    (args : arguments) : list printed * Z :=
  match main_body Session args with
  | (out, Ok _) => (out, 0%Z)
  | (out, Raise e) =>
      (out ++ [match e with
               | NoCredentialsError => print_no_credentials
               | ProfileNotFound _ => print_profile_not_found e
               | _ => print_unexpected e
               end], 1%Z)
  end.

(** ** Notions used to state the properties of the report *)

(** The names a listing response holds, in order. *)
Definition listing_names (self : detector) (k : kind) : list string :=
  match k with
  | lambda_functions =>
      match list_functions self with
      | Ok r => map FunctionName (default [] r) | Raise _ => [] end
  | s3_buckets =>
      match list_buckets self with
      | Ok r => map Name (default [] r) | Raise _ => [] end
  | dynamodb_tables =>
      match list_tables self with
      | Ok r => default [] r | Raise _ => [] end
  | cloudformation_stacks =>
      match list_stacks self StackStatusFilter with
      | Ok r => map StackName (default [] r) | Raise _ => [] end
  | api_gateways =>
      match get_rest_apis self with
      | Ok r => map name (default [] r) | Raise _ => [] end
  end.

(** The record lines 76-85 build for a table. *)
Definition table_record (self : detector) (table_name : string) : resource :=
  match describe_table self table_name with
  | Ok table =>
      [("name", FStr table_name);
       ("status", FStr (default "N/A" (TableStatus table)));
       ("item_count", FInt (default 0%Z (ItemCount table)));
       ("size_bytes", FInt (default 0%Z (TableSizeBytes table)))]
  | Raise _ => [("name", FStr table_name); ("status", FStr "Unknown")]
  end.

(** Readings of a report: its title lines, the numbers of its items,
    and the keys of its field lines. *)
Definition title_of (l : report_line) : option (string * nat) :=
  match l with
  | print_kind t n => Some (t, n)
  | _ => None
  end.

Definition index_of (l : report_line) : option nat :=
  match l with
  | print_item idx _ => Some idx
  | _ => None
  end.

Definition field_key_of (l : report_line) : option string :=
  match l with
  | print_field k _ => Some k
  | _ => None
  end.

Definition is_no_resources (l : report_line) : bool :=
  match l with
  | print_no_resources => true
  | _ => false
  end.

Definition enumerator_lines (out : list printed) : list line :=
  omap (fun p => match p with by_enumerator l => Some l | _ => None end) out.

Definition report_lines (out : list printed) : list report_line :=
  omap (fun p => match p with by_report l => Some l | _ => None end) out.

(** A session for every profile and region, on the example account. *)
Definition example_session (d : detector) (profile region : option string)
    : result aws_session :=
  Ok {| account := d; region_name := Some "ap-southeast-1" |}.

(** The kind a choice of [--service] stands for, and the entries of an
    aggregate that it selects: all of them for [all]. *)
Definition chosen_kind (s : service) : option kind :=
  match s with
  | service_lambda => Some lambda_functions
  | service_s3 => Some s3_buckets
  | service_dynamodb => Some dynamodb_tables
  | service_cloudformation => Some cloudformation_stacks
  | service_apigateway => Some api_gateways
  | service_all => None
  end.

Definition selection (s : service) (resources : list (string * list resource))
    : list (string * list resource) :=
  match chosen_kind s with
  | None => resources
  | Some k => List.filter (fun entry => String.eqb entry.1 (key k)) resources
  end.

(** The line a handler of [main] prints for an error. *)
Definition main_handler (e : exn) : printed :=
  match e with
  | NoCredentialsError => print_no_credentials
  | ProfileNotFound _ => print_profile_not_found e
  | _ => print_unexpected e
  end.

End DetectAwsResources.


(** * Properties of increase_version_of_table.py *)

Module IncreaseVersionOfTableFacts.
Import Py IncreaseVersionOfTable.
#[local] Open Scope py_scope.

Lemma increment_version_spec (it : item) :
  increment_version it =
  match original_version it with
  | Ok n => Ok (<["versionId" := VInt (n + 1)]> it)
  | Raise e => Raise e
  end.
Proof.
  unfold increment_version, original_version.
  destruct (it !! "versionId") as [v|]; [|reflexivity].
  destruct (int v); reflexivity.
Qed.

Lemma conditional_put_incremented (it : item) (n : Z) :
  conditional_put (<["versionId" := VInt (n + 1)]> it) = request_for it n.
Proof.
  unfold conditional_put, request_for.
  by rewrite lookup_insert_eq.
Qed.

Lemma has_version_is_ok (it : item) :
  has_version it <-> is_ok (original_version it) = true.
Proof.
  unfold has_version. split.
  - intros [n ->]. reflexivity.
  - destruct (original_version it) as [n|e]; [eauto | discriminate].
Qed.

Lemma rows_reached_all (rows : list item) :
  Forall has_version rows -> rows_reached rows = rows /\ first_error rows = None.
Proof.
  induction 1 as [|it rows [n Hn] _ [IH1 IH2]]; [done|].
  cbn. rewrite Hn. cbn. by rewrite IH1, IH2.
Qed.

Lemma rows_reached_stops (pre post : list item) (bad : item) (e : exn) :
  Forall has_version pre -> original_version bad = Raise e ->
  rows_reached (pre ++ bad :: post) = pre /\ first_error (pre ++ bad :: post) = Some e.
Proof.
  intros Hpre Hbad.
  induction Hpre as [|it pre [n Hn] _ [IH1 IH2]]; cbn.
  - by rewrite Hbad.
  - rewrite Hn. cbn. by rewrite IH1, IH2.
Qed.

Lemma rows_reached_no_error (rows : list item) :
  first_error rows = None -> rows_reached rows = rows.
Proof.
  induction rows as [|it rows IH]; [done|].
  cbn. destruct (original_version it); cbn; [|done].
  intros H. by rewrite IH.
Qed.

Lemma rows_reached_app (a b : list item) :
  rows_reached (a ++ b) =
  match first_error a with
  | None => a ++ rows_reached b
  | Some _ => rows_reached a
  end.
Proof.
  induction a as [|it a IH]; [done|].
  cbn. destruct (original_version it); cbn; [|done].
  rewrite IH. by destruct (first_error a).
Qed.

Lemma first_error_app (a b : list item) :
  first_error (a ++ b) =
  match first_error a with
  | None => first_error b
  | Some e => Some e
  end.
Proof.
  induction a as [|it a IH]; [done|].
  cbn. by destruct (original_version it).
Qed.

Lemma requests_for_app (a b : list item) :
  requests_for (a ++ b) = requests_for a ++ requests_for b.
Proof.
  induction a as [|it a IH]; [done|].
  cbn. destruct (original_version it); cbn; by rewrite IH.
Qed.

Section PutAll.
Context {St : Type}.
Variable put_item : put_request -> St -> result unit * St.

Lemma put_all_app (a b : list put_request) (st : St) :
  put_all put_item (a ++ b) st =
  let '(la, sta) := put_all put_item a st in
  let '(lb, stb) := put_all put_item b sta in
  (la ++ lb, stb).
Proof.
  revert st. induction a as [|req a IH]; intros st; cbn.
  - by destruct (put_all put_item b st).
  - destruct (put_item req st) as [r st1]. rewrite IH.
    destruct (put_all put_item a st1) as [la sta].
    by destruct (put_all put_item b sta).
Qed.

Lemma put_all_requests (reqs : list put_request) (st : St) :
  (put_all put_item reqs st).1.*1 = reqs.
Proof.
  revert st. induction reqs as [|req reqs IH]; intros st; cbn; [done|].
  destruct (put_item req st) as [r st1]. specialize (IH st1).
  destruct (put_all put_item reqs st1) as [l st2]. cbn in *. by rewrite IH.
Qed.

End PutAll.

Lemma committed_app (a b : list (put_request * result unit)) :
  committed (a ++ b) = committed a + committed b.
Proof. unfold committed. by rewrite List.filter_app, length_app. Qed.

Lemma printed_for_app (a b : list (put_request * result unit)) :
  printed_for (a ++ b) = printed_for a ++ printed_for b.
Proof. unfold printed_for. by rewrite flat_map_app. Qed.

Section Run.
Context {St : Type}.
Variable put_item : put_request -> St -> result unit * St.

Lemma state_eq (s : @state St) c r sc p o :
  count s = c -> remote s = r -> scans s = sc -> puts s = p -> stdout s = o ->
  s = {| count := c; remote := r; scans := sc; puts := p; stdout := o |}.
Proof. destruct s; cbn; congruence. Qed.

(** One page in a dry run: the rows are counted up to the first one
    whose version cannot be read. *)
Lemma for_items_dry (items : list item) (s : state) :
  for_items put_item true items s =
  let s' := {| count := count s + length (rows_reached items); remote := remote s;
               scans := scans s; puts := puts s; stdout := stdout s |} in
  match first_error items with
  | None => Returned s'
  | Some e => Raised e s'
  end.
Proof.
  revert s. induction items as [|it items IH]; intros s; cbn.
  - f_equal. apply state_eq; cbn; auto with lia.
  - rewrite increment_version_spec.
    destruct (original_version it) as [n|e]; cbn.
    + rewrite IH. cbn. rewrite Nat.add_succ_r. reflexivity.
    + f_equal. apply state_eq; cbn; auto with lia.
Qed.

(** One page in a live run: a put is attempted for each row up to the
    first one whose version cannot be read, whatever the puts answer. *)
Lemma for_items_live (items : list item) (s : state) :
  for_items put_item false items s =
  let '(l, st) := put_all put_item (requests_for (rows_reached items)) (remote s) in
  let s' := {| count := count s + committed l; remote := st; scans := scans s;
               puts := puts s ++ l; stdout := stdout s ++ printed_for l |} in
  match first_error items with
  | None => Returned s'
  | Some e => Raised e s'
  end.
Proof.
  revert s. induction items as [|it items IH]; intros s; cbn.
  - f_equal. apply state_eq; cbn; rewrite ?app_nil_r; auto with lia.
  - rewrite increment_version_spec.
    destruct (original_version it) as [n|e] eqn:Hn; cbn.
    + rewrite Hn. rewrite IH. unfold try_put. rewrite conditional_put_incremented. cbn.
      destruct (put_item (request_for it n) (remote s)) as [r st1].
      destruct r as [[]|e]; cbn;
        destruct (put_all put_item (requests_for (rows_reached items)) st1) as [l st2];
        cbn; unfold committed; cbn; fold (committed l);
        rewrite <- ?app_assoc; cbn;
        destruct (first_error items); f_equal; f_equal; lia.
    + f_equal. apply state_eq; cbn; rewrite ?app_nil_r; auto with lia.
Qed.

(** The pages in a dry run: one scan call, one page. *)
Lemma while_pages_dry (pages : scan_pages) (key : option item) (s : state) :
  while_pages put_item true pages key s =
  match pages with
  | scan_raises e => Raised e (log_scan key s)
  | _ =>
      let s' := {| count := count s + length (rows_reached (first_page pages));
                   remote := remote s; scans := scans s ++ [key];
                   puts := puts s; stdout := stdout s |} in
      match first_error (first_page pages) with
      | None => Returned s'
      | Some e => Raised e s'
      end
  end.
Proof.
  destruct pages as [items|items k rest|e]; cbn; [| |done].
  - rewrite for_items_dry. cbn. reflexivity.
  - rewrite for_items_dry. cbn. by destruct (first_error items).
Qed.

(** The pages in a live run: all of them, up to the first error. *)
Lemma while_pages_live (pages : scan_pages) (key : option item) (s : state) :
  while_pages put_item false pages key s =
  let '(l, st) := put_all put_item (requests_for (rows_reached (rows_of pages))) (remote s) in
  let s' := {| count := count s + committed l; remote := st;
               scans := scans s ++ scan_calls pages key;
               puts := puts s ++ l; stdout := stdout s ++ printed_for l |} in
  match abort_of pages with
  | None => Returned s'
  | Some e => Raised e s'
  end.
Proof.
  revert key s. induction pages as [items|items k rest IH|e]; intros key s; cbn.
  - rewrite for_items_live. cbn. reflexivity.
  - rewrite for_items_live. cbn.
    rewrite rows_reached_app.
    destruct (first_error items) as [e|] eqn:He.
    + by destruct (put_all put_item (requests_for (rows_reached items)) (remote s)).
    + rewrite requests_for_app, put_all_app, (rows_reached_no_error items He).
      destruct (put_all put_item (requests_for items) (remote s)) as [l1 st1].
      rewrite IH. cbn [count remote scans puts stdout].
      destruct (put_all put_item (requests_for (rows_reached (rows_of rest))) st1) as [l2 st2].
      rewrite committed_app, printed_for_app, <- !app_assoc, Nat.add_assoc.
      reflexivity.
  - f_equal. apply state_eq; cbn; rewrite ?app_nil_r; auto with lia.
Qed.

End Run.

Lemma abort_of_first_error (pages : scan_pages) (e : exn) :
  first_error (rows_of pages) = Some e -> abort_of pages = Some e.
Proof.
  induction pages as [items|items k rest IH|e']; cbn; [done| |done].
  rewrite first_error_app. destruct (first_error items); auto.
Qed.

Lemma abort_of_none (pages : scan_pages) :
  scan_succeeds pages -> Forall has_version (rows_of pages) -> abort_of pages = None.
Proof.
  induction pages as [items|items k rest IH|e']; cbn; [| |done].
  - intros _ H. by apply rows_reached_all.
  - intros Hs [H1 H2]%Forall_app.
    apply rows_reached_all in H1 as [_ ->]. auto.
Qed.

Lemma requests_for_reached (rows : list item) :
  Forall2 (fun it req => exists n, original_version it = Ok n /\ req = request_for it n)
          (rows_reached rows) (requests_for (rows_reached rows)).
Proof.
  induction rows as [|it rows IH]; cbn; [constructor|].
  destruct (original_version it) as [n|e] eqn:Hn; cbn; [|constructor].
  rewrite Hn. constructor; eauto.
Qed.

(** The reference table's reading of the condition of [request_for]:
    the stored version is below the incremented one. *)
Lemma condition_holds_request_for (it stored : item) (n v : Z) (sv : value) :
  stored !! "versionId" = Some sv -> number sv = Some (v, 0%Z) ->
  condition_holds (request_for it n) stored = true <-> (v < n + 1)%Z.
Proof.
  intros Hs Hv. unfold condition_holds, request_for. cbn.
  rewrite Hs, lookup_singleton_eq. cbn. rewrite Hv.
  unfold number_lt. cbn. rewrite !Z.mul_1_r. apply Z.ltb_lt.
Qed.

(** ** Dry run *)

(** C1.  For a table whose scan spans more than one page and whose
    first-page rows carry a version, a dry run asks for the first page
    only and reports the number of rows of that page as its count, not
    the number of rows of the table; for two pages of ten rows each the
    count is 10, the table having 20 rows. *)
Theorem dry_run_counts_first_page_only {St}
    (put_item : put_request -> St -> result unit * St)
    (dynamodb : option string -> string -> scan_pages * St)
    (table_name : string) (aws_profile : option string)
    (first : list item) (key : item) (rest : scan_pages) (s0 : St) :
  dynamodb aws_profile table_name = (more_pages first key rest, s0) ->
  Forall has_version first ->
  exists s,
    scan_and_update_table put_item dynamodb table_name aws_profile (Some true) = Returned s
    /\ count s = length first
    /\ stdout s = [print_summary (length first)]
    /\ scans s = [None] /\ puts s = [] /\ remote s = s0
    /\ (rows_of rest <> [] -> count s < length (rows_of (more_pages first key rest)))
    /\ (forall second, rest = last_page second ->
          length first = 10 -> length second = 10 ->
          count s = 10 /\ length (rows_of (more_pages first key rest)) = 20).
Proof.
  intros Hdb Hfirst.
  unfold scan_and_update_table. rewrite Hdb. cbn [default].
  rewrite while_pages_dry. cbn [first_page init count remote scans puts stdout].
  destruct (rows_reached_all first Hfirst) as [-> ->].
  eexists. split; [reflexivity|]. cbn.
  split_and!; try done.
  - intros Hrest. rewrite length_app. destruct (rows_of rest); [done|cbn; lia].
  - intros second -> H1 H2. cbn. rewrite length_app. lia.
Qed.

Lemma dry_run_counts_first_page_only_witness :
  exists s,
    scan_and_update_table reference_put_item example_dynamodb "two_pages" None (Some true)
      = Returned s
    /\ count s = 10 /\ stdout s = [print_summary 10]
    /\ length (rows_of two_pages) = 20.
Proof.
  destruct (dry_run_counts_first_page_only reference_put_item example_dynamodb
              "two_pages" None (ten_rows "a") (row "a9" 1) (last_page (ten_rows "b")) ∅
              eq_refl)
    as (s & Hrun & Hcount & Hout & _ & _ & _ & _ & Hten).
  - unfold ten_rows. repeat constructor; by eexists.
  - exists s. destruct (Hten _ eq_refl eq_refl eq_refl) as [H10 H20].
    split_and!; [exact Hrun | exact H10 | exact Hout | exact H20].
Defined.

(** ** Rows without a readable version *)

(** C10.  The increment of line 17 stands outside the handler of lines
    25-33: when a row among those a run reaches lacks [versionId], or
    carries one [int] does not accept, and the rows before it are
    readable, the run of either mode raises that error and is over.  Puts
    have been issued for the rows before only, the count covers the rows
    before only, and no summary is printed. *)
Theorem unreadable_version_aborts_scan {St}
    (put_item : put_request -> St -> result unit * St)
    (dynamodb : option string -> string -> scan_pages * St)
    (table_name : string) (aws_profile : option string) (dry_run : bool)
    (pages : scan_pages) (s0 : St) (pre post : list item) (bad : item) :
  dynamodb aws_profile table_name = (pages, s0) ->
  rows_scanned dry_run pages = pre ++ bad :: post ->
  Forall has_version pre ->
  (bad !! "versionId" = None \/
   exists v e, bad !! "versionId" = Some v /\ int v = Raise e) ->
  exists e s,
    scan_and_update_table put_item dynamodb table_name aws_profile (Some dry_run) = Raised e s
    /\ original_version bad = Raise e
    /\ (puts s).*1 = (if dry_run then [] else requests_for pre)
    /\ count s = (if dry_run then length pre else committed (puts s))
    /\ count s <= length pre
    /\ Forall (fun l => forall n, l <> print_summary n) (stdout s).
Proof.
  intros Hdb Hrows Hpre Hbad.
  assert (exists e, original_version bad = Raise e) as [e He].
  { unfold original_version. destruct Hbad as [-> | (v & e & -> & ->)]; eauto. }
  exists e.
  unfold scan_and_update_table. rewrite Hdb. cbn [default].
  destruct (rows_reached_stops pre post bad e Hpre He) as [Hreached Herr].
  rewrite <- Hrows in Hreached, Herr.
  destruct dry_run; cbn [rows_scanned] in *.
  - rewrite while_pages_dry.
    destruct pages as [items|items k rest|e']; cbn [first_page] in *; [| |done];
      rewrite Herr, Hreached; eexists; (split; [reflexivity|]);
      cbn; split_and!; auto.
  - rewrite while_pages_live. cbn [init remote count puts scans stdout].
    rewrite Hreached, (abort_of_first_error pages e Herr).
    pose proof (put_all_requests put_item (requests_for pre) s0) as Hreqs.
    destruct (put_all put_item (requests_for pre) s0) as [l st] eqn:Hl.
    cbn in Hreqs.
    eexists; split; [reflexivity|]. cbn. split_and!; auto.
    + assert (length l = length (requests_for pre)) as Hlen
        by (by rewrite <- Hreqs, length_fmap).
      assert (length (requests_for pre) <= length pre) as Hle.
      { clear. induction pre as [|it pre IH]; cbn; [lia|].
        destruct (original_version it); cbn; lia. }
      pose proof (List.filter_length_le (fun p => is_ok (snd p)) l).
      unfold committed. lia.
    + unfold printed_for. apply Forall_flat_map, Forall_forall.
      intros [req r] _. cbn. destruct r; repeat constructor; discriminate.
Qed.

Lemma unreadable_version_aborts_scan_witness :
  exists e s,
    scan_and_update_table reference_put_item
      (fun _ _ => (last_page broken_rows, three_rows_stored)) "t" None (Some false)
      = Raised e s
    /\ original_version {[ "id" := VStr "B" ]} = Raise e
    /\ (puts s).*1 = requests_for [row "A" 1]
    /\ count s = committed (puts s)
    /\ count s <= 1
    /\ Forall (fun l => forall n, l <> print_summary n) (stdout s).
Proof.
  apply (unreadable_version_aborts_scan reference_put_item
           (fun _ _ => (last_page broken_rows, three_rows_stored)) "t" None false
           (last_page broken_rows) three_rows_stored
           [row "A" 1] [row "C" 1] {[ "id" := VStr "B" ]}).
  - reflexivity.
  - reflexivity.
  - repeat constructor. by eexists.
  - left. reflexivity.
Defined.

(** ** Live run *)

(** C2.  In a live run the puts issued are, row by row in scan order,
    those of the rows the run reaches, and the put for a row read at
    version [n] carries the row with [versionId] set to [n + 1], the
    condition [versionId < :value] and [:value] bound to that same
    [n + 1]: the stored version is required to be strictly below the
    value about to be written, not compared with the value read. *)
Theorem live_put_compares_with_incremented_version {St}
    (put_item : put_request -> St -> result unit * St)
    (dynamodb : option string -> string -> scan_pages * St)
    (table_name : string) (aws_profile : option string)
    (pages : scan_pages) (s0 : St) :
  dynamodb aws_profile table_name = (pages, s0) ->
  Forall2
    (fun it req =>
       exists n, original_version it = Ok n
         /\ req = {| Item := <["versionId" := VInt (n + 1)]> it;
                     ConditionExpression := "versionId < :value";
                     ExpressionAttributeValues := {[ ":value" := VInt (n + 1) ]} |}
         /\ forall (stored : item) (sv : value) (v : Z),
              stored !! "versionId" = Some sv -> number sv = Some (v, 0%Z) ->
              (condition_holds req stored = true <-> (v < n + 1)%Z))
    (rows_reached (rows_of pages))
    (puts (state_of
       (scan_and_update_table put_item dynamodb table_name aws_profile (Some false)))).*1.
Proof.
  intros Hdb.
  unfold scan_and_update_table. rewrite Hdb. cbn [default].
  rewrite while_pages_live. cbn [init remote count puts scans stdout].
  pose proof (put_all_requests put_item (requests_for (rows_reached (rows_of pages))) s0)
    as Hreqs.
  destruct (put_all put_item (requests_for (rows_reached (rows_of pages))) s0) as [l st].
  cbn in Hreqs.
  match goal with |- Forall2 _ _ ?l.*1 =>
    assert (l.*1 = requests_for (rows_reached (rows_of pages))) as ->
      by (by destruct (abort_of pages))
  end.
  eapply Forall2_impl; [apply requests_for_reached|].
  intros it req (n & Hn & ->). exists n. split_and!; [done..|].
  intros stored sv v. apply condition_holds_request_for.
Qed.

Lemma live_put_compares_with_incremented_version_witness :
  Forall2
    (fun it req =>
       exists n, original_version it = Ok n
         /\ req = {| Item := <["versionId" := VInt (n + 1)]> it;
                     ConditionExpression := "versionId < :value";
                     ExpressionAttributeValues := {[ ":value" := VInt (n + 1) ]} |}
         /\ forall (stored : item) (sv : value) (v : Z),
              stored !! "versionId" = Some sv -> number sv = Some (v, 0%Z) ->
              (condition_holds req stored = true <-> (v < n + 1)%Z))
    (rows_reached (rows_of three_rows))
    (puts (state_of
       (scan_and_update_table reference_put_item example_dynamodb "three_rows" None
          (Some false)))).*1.
Proof.
  exact (live_put_compares_with_incremented_version reference_put_item example_dynamodb
           "three_rows" None three_rows three_rows_stored eq_refl).
Defined.

(** C7.  In a live run over readable rows a put that raises is caught:
    the run returns, a put has been attempted for every row in scan
    order, each against the table as the puts before it left it, and the
    count is the number of puts that did not raise.  For rows A, B, C of
    which only B's put raises, all three puts are attempted and the
    count is 2. *)
Theorem failed_put_is_caught_and_not_counted {St}
    (put_item : put_request -> St -> result unit * St)
    (dynamodb : option string -> string -> scan_pages * St)
    (table_name : string) (aws_profile : option string)
    (pages : scan_pages) (s0 : St) :
  dynamodb aws_profile table_name = (pages, s0) ->
  scan_succeeds pages ->
  Forall has_version (rows_of pages) ->
  exists s,
    scan_and_update_table put_item dynamodb table_name aws_profile (Some false) = Returned s
    /\ (puts s, remote s) = put_all put_item (requests_for (rows_of pages)) s0
    /\ length (puts s) = length (rows_of pages)
    /\ count s = committed (puts s)
    /\ stdout s = printed_for (puts s) ++ [print_summary (count s)]
    /\ (forall A B C a b c e s1 s2 s3,
          rows_of pages = [A; B; C] ->
          original_version A = Ok a ->
          original_version B = Ok b ->
          original_version C = Ok c ->
          put_item (request_for A a) s0 = (Ok tt, s1) ->
          put_item (request_for B b) s1 = (Raise e, s2) ->
          put_item (request_for C c) s2 = (Ok tt, s3) ->
          puts s = [(request_for A a, Ok tt); (request_for B b, Raise e);
                    (request_for C c, Ok tt)]
          /\ count s = 2
          /\ stdout s = [print_update (Item (request_for A a));
                         print_update (Item (request_for B b)); print_lock_failed e;
                         print_update (Item (request_for C c)); print_summary 2]).
Proof.
  intros Hdb Hscan Hrows.
  unfold scan_and_update_table. rewrite Hdb. cbn [default].
  rewrite while_pages_live. cbn [init remote count puts scans stdout].
  rewrite (abort_of_none pages Hscan Hrows).
  destruct (rows_reached_all _ Hrows) as [-> _].
  pose proof (put_all_requests put_item (requests_for (rows_of pages)) s0) as Hreqs.
  destruct (put_all put_item (requests_for (rows_of pages)) s0) as [l st] eqn:Hl.
  cbn in Hreqs.
  eexists. split; [reflexivity|]. cbn.
  split_and!; try done.
  - rewrite <- (length_fmap fst l), Hreqs.
    clear -Hrows. induction Hrows as [|it rows [n Hn] _ IH]; cbn; [done|].
    rewrite Hn. cbn. by rewrite IH.
  - intros A B C a b c e s1 s2 s3 HABC Ha Hb Hc HA HB HC.
    rewrite HABC in Hl. cbn in Hl. rewrite Ha, Hb, Hc in Hl. cbn in Hl.
    rewrite HA, HB, HC in Hl. injection Hl as <- <-. done.
Qed.

Lemma failed_put_is_caught_and_not_counted_witness :
  exists s,
    scan_and_update_table reference_put_item example_dynamodb "three_rows" None (Some false)
      = Returned s
    /\ (puts s).*2 = [Ok tt; Raise (ClientError "ConditionalCheckFailedException"); Ok tt]
    /\ (puts s).*1 = [request_for (row "A" 1) 1; request_for (row "B" 1) 1;
                      request_for (row "C" 1) 1]
    /\ count s = 2.
Proof.
  destruct (failed_put_is_caught_and_not_counted reference_put_item example_dynamodb
              "three_rows" None three_rows three_rows_stored eq_refl I)
    as (s & Hrun & _ & _ & _ & _ & Habc).
  - unfold three_rows. cbn. repeat constructor; by eexists.
  - exists s.
    destruct (Habc (row "A" 1) (row "B" 1) (row "C" 1) 1%Z 1%Z 1%Z
                (ClientError "ConditionalCheckFailedException")
                (<["A" := Item (request_for (row "A" 1) 1)]> three_rows_stored)
                (<["A" := Item (request_for (row "A" 1) 1)]> three_rows_stored)
                (<["C" := Item (request_for (row "C" 1) 1)]>
                   (<["A" := Item (request_for (row "A" 1) 1)]> three_rows_stored))
                eq_refl eq_refl eq_refl eq_refl eq_refl eq_refl eq_refl)
      as (Hputs & Hcount & _).
    split_and!; [exact Hrun | by rewrite Hputs | by rewrite Hputs | exact Hcount].
Defined.

(** ** The command line *)

Lemma dry_run_issues_no_put {St}
    (put_item : put_request -> St -> result unit * St)
    (dynamodb : option string -> string -> scan_pages * St)
    (table_name : string) (aws_profile : option string) :
  puts (state_of
    (scan_and_update_table put_item dynamodb table_name aws_profile (Some true))) = [].
Proof.
  unfold scan_and_update_table.
  destruct (dynamodb aws_profile table_name) as [pages s0]. cbn [default].
  rewrite while_pages_dry.
  destruct pages as [items|items k rest|e]; cbn; [| |done];
    by destruct (first_error items).
Qed.

(** C4, as the code has it.  [--dry-run] is a flag that is off unless
    given: from the command line the updater runs live without it and
    dry with it.  Dry run is the default of the function's parameter
    only, which the command line never leaves out.  A dry run issues no
    put; the run started without the flag issues one for the first row
    of the table, when that row is readable. *)
Theorem command_line_runs_live_unless_flag_given {St}
    (put_item : put_request -> St -> result unit * St)
    (dynamodb : option string -> string -> scan_pages * St)
    (table_name : string) (aws_profile : option string) :
  (forall flag : bool,
     main put_item dynamodb
       {| opt_table_name := Some table_name; opt_dry_run := flag;
          opt_aws_profile := aws_profile |}
     = Ok (scan_and_update_table put_item dynamodb table_name aws_profile (Some flag)))
  /\ scan_and_update_table put_item dynamodb table_name aws_profile None
     = scan_and_update_table put_item dynamodb table_name aws_profile (Some true)
  /\ puts (state_of
       (scan_and_update_table put_item dynamodb table_name aws_profile (Some true))) = []
  /\ (forall it rest n,
        rows_of (dynamodb aws_profile table_name).1 = it :: rest ->
        original_version it = Ok n ->
        exists o r more,
          main put_item dynamodb
            {| opt_table_name := Some table_name; opt_dry_run := false;
               opt_aws_profile := aws_profile |} = Ok o
          /\ puts (state_of o) = (request_for it n, r) :: more).
Proof.
  split_and!.
  - intros flag. unfold main, parse_args. cbn. by destruct flag, aws_profile.
  - reflexivity.
  - apply dry_run_issues_no_put.
  - intros it rest n Hrows Hn.
    exists (scan_and_update_table put_item dynamodb table_name aws_profile (Some false)).
    assert (exists r more,
              puts (state_of (scan_and_update_table put_item dynamodb table_name
                                aws_profile (Some false)))
              = (request_for it n, r) :: more) as (r & more & Hputs).
    { unfold scan_and_update_table.
      destruct (dynamodb aws_profile table_name) as [pages s0]. cbn in Hrows. cbn [default].
      rewrite while_pages_live. cbn [init remote count puts scans stdout].
      rewrite Hrows. cbn. rewrite Hn. cbn. rewrite Hn. cbn [put_all].
      destruct (put_item (request_for it n) s0) as [r st1].
      destruct (put_all put_item (requests_for (rows_reached rest)) st1) as [l st2].
      exists r, l. by destruct (abort_of pages). }
    exists r, more. split; [|exact Hputs].
    unfold main, parse_args. cbn. by destruct aws_profile.
Qed.

Lemma command_line_runs_live_unless_flag_given_witness :
  exists o r more,
    main reference_put_item example_dynamodb
      {| opt_table_name := Some "three_rows"; opt_dry_run := false;
         opt_aws_profile := None |} = Ok o
    /\ puts (state_of o) = (request_for (row "A" 1) 1, r) :: more.
Proof.
  destruct (command_line_runs_live_unless_flag_given reference_put_item example_dynamodb
              "three_rows" None) as (_ & _ & _ & Hlive).
  exact (Hlive (row "A" 1) [row "B" 1; row "C" 1] 1%Z eq_refl eq_refl).
Defined.

(** C4, as the specification has it, fails: called without [--dry-run]
    on the table of rows A, B and C, the updater writes (three puts, two
    of them committed), which no dry run does. *)
Lemma command_line_without_flag_writes :
  exists s,
    main reference_put_item example_dynamodb
      {| opt_table_name := Some "three_rows"; opt_dry_run := false;
         opt_aws_profile := None |} = Ok (Returned s)
    /\ length (puts s) = 3
    /\ count s = 2
    /\ stdout s = [print_update (Item (request_for (row "A" 1) 1));
                   print_update (Item (request_for (row "B" 1) 1));
                   print_lock_failed (ClientError "ConditionalCheckFailedException");
                   print_update (Item (request_for (row "C" 1) 1));
                   print_summary 2]
    /\ puts (state_of (scan_and_update_table reference_put_item example_dynamodb
                         "three_rows" None (Some true))) = []
    /\ main reference_put_item example_dynamodb
         {| opt_table_name := Some "three_rows"; opt_dry_run := false;
            opt_aws_profile := None |}
       <> Ok (scan_and_update_table reference_put_item example_dynamodb
                "three_rows" None (Some true)).
Proof.
  eexists. split_and!; [reflexivity | reflexivity | reflexivity | reflexivity | reflexivity |].
  intros H. injection H as H. discriminate H.
Qed.

(** ** Beyond the claims: what a run asks of the table *)


Lemma scan_calls_cursors (pages : scan_pages) (key : option item) :
  abort_of pages = None ->
  scan_calls pages key = key :: map Some (cursors pages).
Proof.
  revert key. induction pages as [items|items k rest IH|e]; intros key; cbn; [done| |done].
  destruct (first_error items); [done|]. intros H. by rewrite IH.
Qed.

(** X4.  A live run over readable rows, no scan call failing, asks for
    every page: the first call has no start key, and each later call
    starts from the [LastEvaluatedKey] of the response before it. *)
Theorem live_run_resumes_from_each_cursor {St}
    (put_item : put_request -> St -> result unit * St)
    (dynamodb : option string -> string -> scan_pages * St)
    (table_name : string) (aws_profile : option string)
    (pages : scan_pages) (s0 : St) :
  dynamodb aws_profile table_name = (pages, s0) ->
  scan_succeeds pages ->
  Forall has_version (rows_of pages) ->
  scans (state_of
    (scan_and_update_table put_item dynamodb table_name aws_profile (Some false)))
  = None :: map Some (cursors pages).
Proof.
  intros Hdb Hscan Hrows.
  unfold scan_and_update_table. rewrite Hdb. cbn [default].
  rewrite while_pages_live. cbn [init remote count puts scans stdout].
  pose proof (abort_of_none pages Hscan Hrows) as Habort. rewrite Habort.
  destruct (put_all put_item _ s0) as [l st]. cbn.
  by apply scan_calls_cursors.
Qed.

Lemma live_run_resumes_from_each_cursor_witness :
  scans (state_of
    (scan_and_update_table reference_put_item
       (fun _ _ => (three_pages, ∅)) "t" None (Some false)))
  = [None; Some (row "A" 1); Some (row "C" 1)].
Proof.
  apply (live_run_resumes_from_each_cursor reference_put_item
           (fun _ _ => (three_pages, ∅)) "t" None three_pages ∅ eq_refl I).
  unfold three_pages. cbn. repeat constructor; by eexists.
Defined.

End IncreaseVersionOfTableFacts.


(** * Properties of get_logs.py *)

Module GetLogsFacts.
Import Py GetLogs.
#[local] Open Scope py_scope.

(** ** Text and numbers *)







Lemma mk_timedelta_out_of_range (us : Z) :
  ~ timedelta_range us -> mk_timedelta us = Raise OverflowError.
Proof.
  unfold timedelta_range, mk_timedelta, us_per_day. intros H.
  pose proof (Z.div_mod us 86400000000 ltac:(lia)) as Hdm.
  pose proof (Z.mod_pos_bound us 86400000000 ltac:(lia)) as Hb.
  destruct (Z.leb_spec (-999999999) (us / 86400000000));
    destruct (Z.leb_spec (us / 86400000000) 999999999); cbn; try reflexivity.
  lia.
Qed.

(** ** The parser *)





(** ** The loop *)

(** Every call of the loop carries the window of the first, and there is
    a first. *)
Lemma fetch_calls (pages : log_pages) (kw : kwargs) (events : list log_event) :
  (fetch pages kw events).1 <> []
  /\ Forall (fun k => logGroupName k = logGroupName kw /\ startTime k = startTime kw
                      /\ endTime k = endTime kw /\ limit k = limit kw)
            (fetch pages kw events).1.
Proof.
  revert kw events.
  induction pages as [evs|evs tok rest IH|e]; intros kw events; cbn [fetch].
  - split; [done|]. by repeat constructor.
  - destruct (negb _ || _).
    + split; [done|]. by repeat constructor.
    + specialize (IH (set_nextToken tok kw) (events ++ default [] evs)).
      destruct (fetch rest (set_nextToken tok kw) (events ++ default [] evs)) as [calls r].
      cbn in *. split; [done|]. constructor; [done|]. apply IH.
  - split; [done|]. by repeat constructor.
Qed.

(** What is shown is capped at 100 events, whatever is returned. *)
Lemma report_shows_at_most_100 (events : list log_event) :
  length (List.filter is_print_event (report events)) <= 100.
Proof.
  unfold report. destruct events as [|ev events]; [cbn; lia|].
  cbn [app List.filter is_print_event].
  rewrite List.filter_app. cbn [List.filter is_print_event app].
  rewrite length_app. cbn [length].
  etrans; [apply Nat.add_le_mono_r, List.filter_length_le|].
  rewrite length_map, length_firstn. lia.
Qed.




(** ** The time range *)




(** ** The cap *)

(** C3 at a failing input.  The store yields two pages of 60 events: the
    loop stops after the second, with 120 events; 120 are announced and
    returned, the first 100 are printed. *)
Lemma get_logs_returns_more_than_100 :
  length (returned (get_logs (example_world two_pages_of_60) "nuoa" "Report-beta-api" "5m"))
  = 120
  /\ returned (get_logs (example_world two_pages_of_60) "nuoa" "Report-beta-api" "5m")
     = some_events 0 120
  /\ length (calls (get_logs (example_world two_pages_of_60) "nuoa" "Report-beta-api" "5m"))
     = 2
  /\ In (print_found 120)
       (stdout (get_logs (example_world two_pages_of_60) "nuoa" "Report-beta-api" "5m"))
  /\ List.filter is_print_event
       (stdout (get_logs (example_world two_pages_of_60) "nuoa" "Report-beta-api" "5m"))
     = map print_event (some_events 0 100).
Proof.
  split_and!; [by vm_compute..| |by vm_compute].
  vm_compute. auto.
Qed.

(** With the same 250 events on three pages: 100 are returned when the
    first page is full, 175 when the pages hold 75, 100 and 75. *)
Lemma get_logs_on_250_events :
  length (returned
    (get_logs (example_world three_pages_of_250) "nuoa" "Report-beta-api" "5m")) = 100
  /\ length (returned
       (get_logs (example_world three_uneven_pages_of_250) "nuoa" "Report-beta-api" "5m"))
     = 175.
Proof. split; by vm_compute. Qed.

(** ** What the cap does hold for *)

Lemma fetch_within (pages : log_pages) (kw : kwargs) (events : list log_event) :
  pages_within 100 pages -> length events < 100 ->
  match (fetch pages kw events).2 with
  | Ok events' => length events' < 200
  | Raise _ => True
  end.
Proof.
  revert kw events.
  induction pages as [evs|evs tok rest IH|e]; intros kw events; cbn [fetch pages_within].
  - intros H He. cbn. rewrite length_app. lia.
  - intros [H Hrest] He.
    destruct (negb (truthy (Some tok))); cbn [orb].
    + cbn. rewrite length_app. lia.
    + destruct (Nat.leb_spec 100 (length (events ++ default [] evs))) as [Hge|Hlt].
      * cbn. rewrite length_app. lia.
      * specialize (IH (set_nextToken tok kw) (events ++ default [] evs) Hrest Hlt).
        by destruct (fetch rest (set_nextToken tok kw) (events ++ default [] evs)).
  - done.
Qed.

(** X1.  The events [get_logs] prints are at most 100, on every input:
    line 70 shows [events[:100]]. *)
Theorem get_logs_prints_at_most_100 (w : world)
    (profile_name function_name time_range : string) :
  length (List.filter is_print_event
            (stdout (get_logs w profile_name function_name time_range))) <= 100.
Proof.
  unfold get_logs, body.
  destruct (negb (profile_exists w profile_name)); [cbn; lia|].
  destruct (bind (parse_time_range time_range) _) as [start_time|e].
  - match goal with |- context [fetch ?p ?k ?ev] => destruct (fetch p k ev) as [cs [events|e]] end;
      cbn [stdout].
    + rewrite List.filter_app. cbn [List.filter is_print_event app].
      apply report_shows_at_most_100.
    + rewrite List.filter_app. cbn [List.filter is_print_event app].
      destruct e; cbn; try lia. by destruct (String.eqb _ _); cbn; lia.
  - cbn [stdout app]. destruct e; cbn; try lia. by destruct (String.eqb _ _); cbn; lia.
Qed.

(** X2.  The events [get_logs] returns are fewer than 200 when every
    page holds at most 100, the limit the script asks for. *)
Theorem get_logs_returns_fewer_than_200 (w : world)
    (profile_name function_name time_range : string) :
  pages_within 100 (log_group w ("/aws/lambda/" +:+ function_name)) ->
  length (returned (get_logs w profile_name function_name time_range)) < 200.
Proof.
  intros Hpages. unfold get_logs, body.
  destruct (negb (profile_exists w profile_name)); [cbn; lia|].
  destruct (bind (parse_time_range time_range) _) as [start_time|e]; [|cbn; lia].
  match goal with |- context [fetch ?p ?k ?ev] =>
    pose proof (fetch_within p k ev Hpages ltac:(cbn; lia)) as H;
    destruct (fetch p k ev) as [cs [events|e]]
  end; cbn in *; lia.
Qed.

Lemma get_logs_returns_fewer_than_200_witness :
  length (returned
    (get_logs (example_world three_uneven_pages_of_250) "nuoa" "Report-beta-api" "5m"))
  < 200.
Proof.
  apply (get_logs_returns_fewer_than_200 (example_world three_uneven_pages_of_250)).
  vm_compute. lia.
Defined.

(** ** Beyond the claims: what the loop fetches *)

Lemma fetch_prefix (pages : log_pages) (kw : kwargs) (events : list log_event) :
  match (fetch pages kw events).2 with
  | Ok events' => events' `prefix_of` events ++ all_events pages
  | Raise _ => True
  end.
Proof.
  revert kw events.
  induction pages as [evs|evs tok rest IH|e]; intros kw events; cbn [fetch all_events].
  - cbn. reflexivity.
  - destruct (negb _ || _).
    + cbn. rewrite app_assoc. by apply prefix_app_r.
    + specialize (IH (set_nextToken tok kw) (events ++ default [] evs)).
      destruct (fetch rest (set_nextToken tok kw) (events ++ default [] evs)) as [cs r].
      cbn in *. by rewrite app_assoc.
  - done.
Qed.

(** X5.  What [get_logs] returns is, on every input, a prefix of the
    events the log store holds for the group of the function, in the
    order the store yields them: events are neither invented, nor
    reordered, nor skipped before the place where the result ends. *)
Theorem get_logs_returns_a_prefix_of_the_stored_events (w : world)
    (profile_name function_name time_range : string) :
  returned (get_logs w profile_name function_name time_range)
  `prefix_of` all_events (log_group w ("/aws/lambda/" +:+ function_name)).
Proof.
  unfold get_logs, body.
  destruct (negb (profile_exists w profile_name)); [apply prefix_nil|].
  destruct (bind (parse_time_range time_range) _) as [start_time|e]; [|apply prefix_nil].
  match goal with |- context [fetch ?p ?k ?ev] =>
    pose proof (fetch_prefix p k ev) as H;
    destruct (fetch p k ev) as [cs [events|e]]
  end; cbn in *; [done|apply prefix_nil].
Qed.




Lemma fetch_tokens (pages : log_pages) (kw : kwargs) (events : list log_event) :
  map nextToken (fetch pages kw events).1
  `prefix_of` nextToken kw :: map Some (tokens pages).
Proof.
  revert kw events.
  induction pages as [evs|evs tok rest IH|e]; intros kw events; cbn [fetch tokens].
  - cbn. reflexivity.
  - destruct (negb _ || _).
    + cbn. by apply prefix_cons, prefix_nil.
    + specialize (IH (set_nextToken tok kw) (events ++ default [] evs)).
      destruct (fetch rest (set_nextToken tok kw) (events ++ default [] evs)) as [cs r].
      cbn in *. by apply prefix_cons.
  - done.
Qed.

(** X7.  The first call of a run carries no token, and every later call
    carries the [nextToken] of the response before it: the tokens sent
    are, in order, a prefix of those the store returned.  Every call
    names the group [/aws/lambda/] followed by the function name and
    asks for at most 100 events. *)
Theorem get_logs_sends_back_the_tokens_it_received (w : world)
    (profile_name function_name time_range : string) :
  map nextToken (calls (get_logs w profile_name function_name time_range))
    `prefix_of` None :: map Some (tokens (log_group w ("/aws/lambda/" +:+ function_name)))
  /\ Forall (fun kw => logGroupName kw = "/aws/lambda/" +:+ function_name
                       /\ limit kw = 100%Z)
       (calls (get_logs w profile_name function_name time_range)).
Proof.
  unfold get_logs, body.
  destruct (negb (profile_exists w profile_name)); [split; [apply prefix_nil|done]|].
  destruct (bind (parse_time_range time_range) _) as [start_time|e];
    [|split; [apply prefix_nil|done]].
  match goal with |- context [fetch ?p ?k ?ev] =>
    pose proof (fetch_tokens p k ev) as Htok;
    pose proof (fetch_calls p k ev) as [_ Hall];
    destruct (fetch p k ev) as [cs [events|e]]
  end; cbn in *; (split; [done|]);
    (eapply Forall_impl; [exact Hall|]); by intros kw (-> & _ & _ & ->).
Qed.

Lemma then_raises_fetch (good : list (option (list log_event) * string)) (e : exn)
    (kw : kwargs) (events : list log_event) :
  Forall (fun p => p.2 <> EmptyString) good ->
  length (events ++ concat (map (fun p => default [] p.1) good)) < 100 ->
  (fetch (then_raises good e) kw events).2 = Raise e
  /\ length (fetch (then_raises good e) kw events).1 = S (length good).
Proof.
  revert kw events. induction good as [|[evs tok] good IH]; intros kw events; [done|].
  intros [Htok Hrest]%Forall_cons Hlen. cbn [then_raises fetch].
  cbn [map concat fst snd] in *. rewrite app_assoc in Hlen.
  assert (truthy (Some tok) = true) as -> by (by destruct tok).
  destruct (Nat.leb_spec 100 (length (events ++ default [] evs))) as [Hge|Hlt].
  { rewrite length_app in Hlen. lia. }
  cbn [negb orb].
  specialize (IH (set_nextToken tok kw) (events ++ default [] evs) Hrest Hlen).
  destruct (fetch (then_raises good e) (set_nextToken tok kw) (events ++ default [] evs))
    as [cs r].
  cbn in *. destruct IH as [-> ->]. done.
Qed.

(** X8.  A call that fails after pages were fetched discards them: when
    the store answers some pages, fewer than 100 events in all, and then
    raises, [get_logs] returns the empty list and prints no event, only
    the lines of the handler for that error after the two header lines.
    For the error code [ResourceNotFoundException] these are the lines
    that name the log group and ask to check the function name. *)
Theorem get_logs_discards_fetched_events_on_error (w : world)
    (profile_name function_name time_range : string) (d : timedelta) (start : datetime)
    (good : list (option (list log_event) * string)) (e : exn) :
  profile_exists w profile_name = true ->
  parse_time_range time_range = Ok d ->
  datetime_sub (utcnow w) d = Ok start ->
  log_group w ("/aws/lambda/" +:+ function_name) = then_raises good e ->
  Forall (fun p => p.2 <> EmptyString) good ->
  length (concat (map (fun p => default [] p.1) good)) < 100 ->
  returned (get_logs w profile_name function_name time_range) = []
  /\ length (calls (get_logs w profile_name function_name time_range)) = S (length good)
  /\ stdout (get_logs w profile_name function_name time_range)
     = [print_fetching function_name profile_name;
        print_time_range time_range start (utcnow w)]
       ++ handler profile_name ("/aws/lambda/" +:+ function_name) e
  /\ (e = ClientError "ResourceNotFoundException" ->
      stdout (get_logs w profile_name function_name time_range)
      = [print_fetching function_name profile_name;
         print_time_range time_range start (utcnow w);
         print_log_group_not_found ("/aws/lambda/" +:+ function_name);
         print_check_name]).
Proof.
  intros Hp Hparse Hsub Hgroup Htok Hlen.
  assert (stdout (get_logs w profile_name function_name time_range)
          = [print_fetching function_name profile_name;
             print_time_range time_range start (utcnow w)]
            ++ handler profile_name ("/aws/lambda/" +:+ function_name) e
          /\ returned (get_logs w profile_name function_name time_range) = []
          /\ length (calls (get_logs w profile_name function_name time_range))
             = S (length good)) as (Hout & Hret & Hcalls).
  { unfold get_logs, body. rewrite Hp, Hparse. cbn [negb bind]. rewrite Hsub, Hgroup.
    match goal with |- context [fetch ?p ?k ?ev] =>
      destruct (then_raises_fetch good e k ev Htok Hlen) as [Hr Hc];
      destruct (fetch p k ev) as [cs r]
    end. cbn in Hr, Hc. by subst r. }
  split_and!; [done..|].
  intros ->. by rewrite Hout.
Qed.

Lemma get_logs_discards_fetched_events_on_error_witness :
  returned (get_logs (example_world (fails_on_third_call (ClientError "ThrottlingException")))
              "nuoa" "Report-beta-api" "5m") = []
  /\ length (calls (get_logs
       (example_world (fails_on_third_call (ClientError "ThrottlingException")))
       "nuoa" "Report-beta-api" "5m")) = 3
  /\ stdout (get_logs (example_world (fails_on_third_call (ClientError "ThrottlingException")))
               "nuoa" "Report-beta-api" "5m")
     = [print_fetching "Report-beta-api" "nuoa";
        print_time_range "5m" 63929390100000000%Z 63929390400000000%Z;
        print_aws_error (ClientError "ThrottlingException")].
Proof.
  destruct (get_logs_discards_fetched_events_on_error
              (example_world (fails_on_third_call (ClientError "ThrottlingException")))
              "nuoa" "Report-beta-api" "5m" (5 * us_per_minute)%Z 63929390100000000%Z
              [(Some (some_events 0 25), "t1"); (Some (some_events 25 25), "t2")]
              (ClientError "ThrottlingException") eq_refl eq_refl eq_refl eq_refl)
    as (Hret & Hcalls & Hout & _).
  - repeat constructor; discriminate.
  - vm_compute. lia.
  - split_and!; [exact Hret | exact Hcalls | exact Hout].
Defined.

End GetLogsFacts.


(** * Properties of get_lambdas.py *)

Module GetLambdasFacts.
Import Py GetLambdas.
#[local] Open Scope py_scope.

(** ** Substrings *)

Lemma same_ignoring_case_lower (a b : string) :
  same_ignoring_case a b <-> lower a = lower b.
Proof.
  split.
  - induction 1 as [|c1 c2 s1 s2 Hc _ IH]; cbn; congruence.
  - revert b. induction a as [|c1 a IH]; intros [|c2 b]; cbn; try done.
    + constructor.
    + intros [= Hc Hs]. constructor; auto.
Qed.

Lemma append_cons (c : ascii) (s t : string) :
  String c s +:+ t = String c (s +:+ t).
Proof. reflexivity. Qed.

Lemma append_empty (t : string) : EmptyString +:+ t = t.
Proof. reflexivity. Qed.

Lemma lower_app (a b : string) : lower (a +:+ b) = lower a +:+ lower b.
Proof.
  induction a as [|c a IH]; [done|].
  rewrite append_cons. cbn [lower]. by rewrite append_cons, IH.
Qed.

(** A text that lower-cases to [x +:+ y] splits accordingly. *)
Lemma lower_split (s x y : string) :
  lower s = x +:+ y -> exists a b, s = a +:+ b /\ lower a = x /\ lower b = y.
Proof.
  revert s. induction x as [|c x IH]; intros s H.
  - by exists EmptyString, s.
  - destruct s as [|c' s]; [done|].
    rewrite append_cons in H. cbn [lower] in H. injection H as Hc Hs.
    destruct (IH s Hs) as (a & b & -> & Ha & Hb).
    exists (String c' a), b. cbn [lower]. by rewrite Hc, Ha.
Qed.

Lemma prefix_split (needle hay : string) :
  String.prefix needle hay = true <-> exists after, hay = needle +:+ after.
Proof.
  revert hay. induction needle as [|c needle IH]; intros hay.
  - destruct hay as [|c' hay]; (split; [by eexists|done]).
  - destruct hay as [|c' hay]; [split; [done|by intros [? ?]]|].
    cbn [String.prefix].
    destruct (Ascii.ascii_dec c c') as [->|Hne].
    + rewrite IH. split; intros [after H]; exists after;
        rewrite append_cons in *; congruence.
    + split; [done|]. intros [after H]. rewrite append_cons in H. congruence.
Qed.

Lemma contains_split (needle hay : string) :
  contains needle hay = true <-> exists before after, hay = before +:+ needle +:+ after.
Proof.
  induction hay as [|c hay IH]; cbn [contains]; rewrite orb_true_iff, prefix_split.
  - split.
    + intros [[after H]|?]; [|done]. by exists EmptyString, after.
    + intros (before & after & H). left.
      destruct before; [by exists after|done].
  - rewrite IH. split.
    + intros [[after H]|(before & after & H)].
      * by exists EmptyString, after.
      * exists (String c before), after. by rewrite append_cons, H.
    + intros (before & after & H). destruct before as [|c' before].
      * left. by exists after.
      * right. rewrite append_cons in H. injection H as _ H. by exists before, after.
Qed.

(** The test of lines 33 and 35 decides the case-insensitive substring. *)
Lemma contains_lower_ci_substring (f name : string) :
  contains (lower f) (lower name) = true <-> ci_substring f name.
Proof.
  rewrite contains_split. unfold ci_substring. split.
  - intros (x & y & H).
    destruct (lower_split name x (lower f +:+ y) H) as (before & rest & -> & Hb & Hr).
    destruct (lower_split rest (lower f) y Hr) as (stretch & after & -> & Hs & Ha).
    exists before, stretch, after. split; [done|]. by apply same_ignoring_case_lower.
  - intros (before & stretch & after & -> & Hs%same_ignoring_case_lower).
    exists (lower before), (lower after). by rewrite !lower_app, Hs.
Qed.

Lemma ci_substring_empty (name : string) : ci_substring EmptyString name.
Proof. exists EmptyString, EmptyString, name. split; [done|constructor]. Qed.

Lemma skips_spec (filter : option string) (name : string) :
  skips filter name = false <-> (forall f, filter = Some f -> ci_substring f name).
Proof.
  destruct filter as [f|]; cbn; [|done].
  destruct f as [|c f].
  - cbn. split; [|done]. intros _ f [= <-]. apply ci_substring_empty.
  - cbn [truthy andb]. rewrite negb_false_iff, contains_lower_ci_substring.
    split; [by intros H f' [= <-]|auto].
Qed.

(** ** The filters *)

Lemma kept_passes (domain stage : option string) (name : string) :
  kept domain stage name = true <-> passes domain stage name.
Proof.
  unfold kept, passes.
  rewrite andb_true_iff, !negb_true_iff, !skips_spec. done.
Qed.

Lemma for_functions_filter (domain stage : option string) (funcs : list function)
    (functions : list string) :
  for_functions domain stage funcs functions
  = functions ++ List.filter (kept domain stage) (map FunctionName funcs).
Proof.
  revert functions. induction funcs as [|func funcs IH]; intros functions; cbn.
  - by rewrite app_nil_r.
  - unfold kept at 1.
    destruct (skips domain (FunctionName func)); cbn; [apply IH|].
    destruct (skips stage (FunctionName func)); cbn; [apply IH|].
    by rewrite IH, <- app_assoc.
Qed.

Lemma for_pages_filter (domain stage : option string) (ps : pages)
    (functions : list string) :
  listing_succeeds ps ->
  for_pages domain stage ps functions
  = Ok (functions ++ List.filter (kept domain stage) (names_of ps)).
Proof.
  revert functions. induction ps as [|funcs rest IH|e]; intros functions; cbn; [|..|done].
  - by rewrite app_nil_r.
  - intros H. by rewrite IH, for_functions_filter, List.filter_app, app_assoc.
Qed.

Lemma get_lambdas_returned (w : world) (profile_name : string)
    (domain stage : option string) :
  profile_exists w profile_name = true ->
  listing_succeeds (list_functions w) ->
  get_lambdas w profile_name domain stage
  = {| returned := List.filter (kept domain stage) (names_of (list_functions w));
       stdout := print_fetching profile_name
                   :: report (List.filter (kept domain stage) (names_of (list_functions w))) |}.
Proof.
  intros Hp Hl. unfold get_lambdas. by rewrite Hp, for_pages_filter.
Qed.

(** C6.  The names returned are those of the listing, in its order, for
    which every filter supplied is a case-insensitive substring of the
    name: the two filters are conjunctive.  Of ReportMgmt-beta-api and
    ActivityMgmt-prod-api, the domain report keeps the first alone, and
    the stage prod added to it keeps none. *)
Theorem filters_are_conjunctive_and_case_insensitive (w : world) (profile_name : string)
    (domain stage : option string) :
  profile_exists w profile_name = true ->
  listing_succeeds (list_functions w) ->
  returned (get_lambdas w profile_name domain stage)
    = List.filter (kept domain stage) (names_of (list_functions w))
  /\ (forall name, kept domain stage name = true <-> passes domain stage name)
  /\ (forall name,
        In name (returned (get_lambdas w profile_name domain stage))
        <-> In name (names_of (list_functions w)) /\ passes domain stage name)
  /\ (names_of (list_functions w) = ["ReportMgmt-beta-api"; "ActivityMgmt-prod-api"] ->
      returned (get_lambdas w profile_name (Some "report") None) = ["ReportMgmt-beta-api"]
      /\ returned (get_lambdas w profile_name (Some "report") (Some "prod")) = []).
Proof.
  intros Hp Hl. rewrite !get_lambdas_returned by done. cbn [returned].
  split_and!.
  - done.
  - apply kept_passes.
  - intros name. by rewrite List.filter_In, kept_passes.
  - intros ->. by split.
Qed.

Lemma filters_are_conjunctive_and_case_insensitive_witness :
  returned (get_lambdas (example_world two_functions) "nuoa" (Some "report") None)
    = ["ReportMgmt-beta-api"]
  /\ returned (get_lambdas (example_world two_functions) "nuoa" (Some "report") (Some "prod"))
     = []
  /\ passes (Some "report") None "ReportMgmt-beta-api".
Proof.
  destruct (filters_are_conjunctive_and_case_insensitive (example_world two_functions)
              "nuoa" (Some "report") None eq_refl I) as (_ & Hk & _ & Hex).
  destruct (Hex eq_refl) as [H1 H2].
  split_and!; [exact H1 | exact H2 | by apply Hk].
Defined.

(** ** The report *)

Lemma sorted_spec (l : list string) :
  StronglySorted String.le (sorted l) /\ Permutation (sorted l) l.
Proof.
  split.
  - apply StronglySorted_merge_sort; apply _.
  - apply merge_sort_Permutation.
Qed.

(** C9.  After the line that announces the fetch, the lister prints the
    matching names in lexicographic order, one [print] each, under a
    line with their number; with no match it prints the line saying that
    no function matches the criteria. *)
Theorem matches_are_printed_sorted (w : world) (profile_name : string)
    (domain stage : option string) :
  profile_exists w profile_name = true ->
  listing_succeeds (list_functions w) ->
  stdout (get_lambdas w profile_name domain stage)
    = print_fetching profile_name
        :: match returned (get_lambdas w profile_name domain stage) with
           | [] => [print_no_functions]
           | _ :: _ =>
               print_found (length (returned (get_lambdas w profile_name domain stage)))
                 :: map print_function
                      (sorted (returned (get_lambdas w profile_name domain stage)))
           end
  /\ StronglySorted String.le (sorted (returned (get_lambdas w profile_name domain stage)))
  /\ Permutation (sorted (returned (get_lambdas w profile_name domain stage)))
       (returned (get_lambdas w profile_name domain stage))
  /\ (returned (get_lambdas w profile_name domain stage) = [] ->
      stdout (get_lambdas w profile_name domain stage)
        = [print_fetching profile_name; print_no_functions]).
Proof.
  intros Hp Hl. rewrite !get_lambdas_returned by done. cbn [returned stdout].
  destruct (sorted_spec (List.filter (kept domain stage) (names_of (list_functions w))))
    as [Hs Hperm].
  split_and!; [|done|done|by intros ->].
  unfold report. by destruct (List.filter _ _).
Qed.

Lemma matches_are_printed_sorted_witness :
  returned (get_lambdas (example_world unsorted_functions) "nuoa" (Some "REPORT") None)
    = ["report-b"; "Report-a"; "report"]
  /\ stdout (get_lambdas (example_world unsorted_functions) "nuoa" (Some "REPORT") None)
     = [print_fetching "nuoa"; print_found 3;
        print_function "Report-a"; print_function "report"; print_function "report-b"]
  /\ stdout (get_lambdas (example_world unsorted_functions) "nuoa" (Some "gamma") None)
     = [print_fetching "nuoa"; print_no_functions].
Proof.
  destruct (matches_are_printed_sorted (example_world unsorted_functions) "nuoa"
              (Some "REPORT") None eq_refl I) as (Hout & _ & _ & _).
  destruct (matches_are_printed_sorted (example_world unsorted_functions) "nuoa"
              (Some "gamma") None eq_refl I) as (_ & _ & _ & Hnone).
  split_and!; [reflexivity | exact Hout | exact (Hnone eq_refl)].
Defined.

(** ** Beyond the claims: failures, empty filters and composition *)

Lemma for_pages_spec (domain stage : option string) (ps : pages)
    (functions : list string) :
  for_pages domain stage ps functions
  = match failure ps with
    | Some e => Raise e
    | None => Ok (functions ++ List.filter (kept domain stage) (names_of ps))
    end.
Proof.
  revert functions. induction ps as [|funcs rest IH|e]; intros functions; cbn.
  - by rewrite app_nil_r.
  - rewrite IH, for_functions_filter, List.filter_app, app_assoc.
    by destruct (failure rest).
  - done.
Qed.

(** X9.  A listing that fails on any page loses the matches of the pages
    before it: [get_lambdas] returns the empty list and prints, after
    the fetch line, the lines of the handler for the error and no name. *)
Theorem get_lambdas_failure_discards_matches (w : world) (profile_name : string)
    (domain stage : option string) (e : exn) :
  profile_exists w profile_name = true ->
  failure (list_functions w) = Some e ->
  returned (get_lambdas w profile_name domain stage) = []
  /\ stdout (get_lambdas w profile_name domain stage)
     = print_fetching profile_name :: handler profile_name e
  /\ List.filter is_print_function (stdout (get_lambdas w profile_name domain stage)) = [].
Proof.
  intros Hp He. unfold get_lambdas. rewrite Hp, for_pages_spec, He. cbn.
  split_and!; [done..|].
  destruct e; cbn; done.
Qed.

Lemma get_lambdas_failure_discards_matches_witness :
  names_of (second_page_fails (ClientError "ThrottlingException")) = ["ReportMgmt-beta-api"]
  /\ returned (get_lambdas (example_world (second_page_fails (ClientError "ThrottlingException")))
                 "nuoa" (Some "report") None) = []
  /\ stdout (get_lambdas (example_world (second_page_fails (ClientError "ThrottlingException")))
               "nuoa" (Some "report") None)
     = [print_fetching "nuoa"; print_aws_error (ClientError "ThrottlingException")].
Proof.
  destruct (get_lambdas_failure_discards_matches
              (example_world (second_page_fails (ClientError "ThrottlingException")))
              "nuoa" (Some "report") None (ClientError "ThrottlingException")
              eq_refl eq_refl) as (Hret & Hout & _).
  split_and!; [reflexivity | exact Hret | exact Hout].
Defined.

Lemma for_functions_ext (d s d' s' : option string) (funcs : list function)
    (functions : list string) :
  (forall name, kept d s name = kept d' s' name) ->
  for_functions d s funcs functions = for_functions d' s' funcs functions.
Proof.
  intros H. rewrite !for_functions_filter. f_equal.
  apply List.filter_ext. exact H.
Qed.

Lemma get_lambdas_ext (w : world) (profile_name : string) (d s d' s' : option string) :
  (forall name, kept d s name = kept d' s' name) ->
  get_lambdas w profile_name d s = get_lambdas w profile_name d' s'.
Proof.
  intros H. unfold get_lambdas. rewrite !for_pages_spec.
  by rewrite (List.filter_ext _ _ H).
Qed.

(** X10.  A filter given as the empty text is no filter: the run is the
    one with that filter left out.  And with no filter at all, every
    name of a listing that succeeds is returned, in the order listed. *)
Theorem empty_filter_is_no_filter (w : world) (profile_name : string)
    (domain stage : option string) :
  get_lambdas w profile_name (Some EmptyString) stage = get_lambdas w profile_name None stage
  /\ get_lambdas w profile_name domain (Some EmptyString)
     = get_lambdas w profile_name domain None
  /\ (profile_exists w profile_name = true ->
      listing_succeeds (list_functions w) ->
      returned (get_lambdas w profile_name None None) = names_of (list_functions w)).
Proof.
  split_and!.
  - by apply get_lambdas_ext.
  - apply get_lambdas_ext. intros name. unfold kept. by destruct (skips domain name).
  - intros Hp Hl. rewrite get_lambdas_returned by done. cbn [returned].
    unfold kept. cbn. induction (names_of (list_functions w)) as [|n l IH]; [done|].
    cbn. by rewrite IH.
Qed.

Lemma empty_filter_is_no_filter_witness :
  returned (get_lambdas (example_world unsorted_functions) "nuoa" None None)
  = ["report-b"; "Report-a"; "activity"; "report"].
Proof.
  destruct (empty_filter_is_no_filter (example_world unsorted_functions) "nuoa" None None)
    as (_ & _ & Hall).
  exact (Hall eq_refl I).
Defined.

(** X11.  The two filters are interchangeable: giving as stage what was
    the domain and as domain what was the stage is the same run. *)
Theorem domain_and_stage_are_interchangeable (w : world) (profile_name : string)
    (domain stage : option string) :
  get_lambdas w profile_name domain stage = get_lambdas w profile_name stage domain.
Proof.
  apply get_lambdas_ext. intros name. unfold kept. apply andb_comm.
Qed.

Lemma filter_kept_both (domain stage : option string) (l : list string) :
  List.filter (kept domain stage) l
  = List.filter (kept None stage) (List.filter (kept domain None) l).
Proof.
  induction l as [|name l IH]; [done|].
  cbn [List.filter].
  assert (kept domain stage name = kept domain None name && kept None stage name) as ->
    by (unfold kept; cbn; by rewrite andb_true_r).
  destruct (kept domain None name); cbn [andb List.filter].
  - destruct (kept None stage name); by rewrite IH.
  - exact IH.
Qed.

(** X12.  Filtering by domain and stage is filtering by domain and then
    filtering what was returned by stage: on every input, the names
    returned with both filters are those, among the names returned with
    the domain alone, that pass the stage. *)
Theorem filters_compose (w : world) (profile_name : string)
    (domain stage : option string) :
  returned (get_lambdas w profile_name domain stage)
  = List.filter (kept None stage) (returned (get_lambdas w profile_name domain None)).
Proof.
  unfold get_lambdas.
  destruct (negb (profile_exists w profile_name)); [done|].
  rewrite !for_pages_spec. destruct (failure (list_functions w)); [done|].
  cbn. apply filter_kept_both.
Qed.

(** X13.  The number announced is the number of names printed and the
    number of names returned, on every input: after a line that
    announces [n] functions come [n] lines with a name each. *)
Theorem found_count_is_the_number_of_names_printed (w : world) (profile_name : string)
    (domain stage : option string) :
  length (List.filter is_print_function (stdout (get_lambdas w profile_name domain stage)))
  = length (returned (get_lambdas w profile_name domain stage))
  /\ Forall (fun l => forall n, l = print_found n ->
                       n = length (returned (get_lambdas w profile_name domain stage)))
       (stdout (get_lambdas w profile_name domain stage)).
Proof.
  unfold get_lambdas.
  destruct (negb (profile_exists w profile_name)); [by split; [|repeat constructor]|].
  rewrite for_pages_spec. destruct (failure (list_functions w)) as [e|].
  - cbn. split; [|constructor; [done|]]; destruct e; by repeat constructor.
  - cbn [returned stdout app]. generalize (List.filter (kept domain stage)
                                              (names_of (list_functions w))).
    intros l. unfold report. destruct l as [|name l]; [by split; [|repeat constructor]|].
    cbn [List.filter is_print_function].
    assert (forall names, List.filter is_print_function (map print_function names)
                          = map print_function names) as Hall.
    { induction names as [|a names IH]; [done|]. cbn. by rewrite IH. }
    rewrite Hall, length_map.
    split.
    + apply Permutation_length, merge_sort_Permutation.
    + constructor; [done|]. constructor; [by intros n [= <-]|].
      apply Forall_forall. intros x (y & -> & _)%list_elem_of_fmap. done.
Qed.

End GetLambdasFacts.


(** * Properties of detect_aws_resources.py *)

Module DetectAwsResourcesFacts.
Import Py DetectAwsResources.
#[local] Open Scope py_scope.








(** ** Beyond the claims: the records, the report and the exit status *)

Lemma for_table_names_spec (self : detector) (names : list string) (tables : list resource) :
  Forall (fun t => forall e, describe_table self t = Raise e -> is_ClientError e = true)
    names ->
  for_table_names self names tables = Ok (tables ++ map (table_record self) names).
Proof.
  intros H. revert tables.
  induction H as [|t names Ht _ IH]; intros tables; cbn [for_table_names map].
  - by rewrite app_nil_r.
  - unfold table_record at 1.
    destruct (describe_table self t) as [table|e].
    + by rewrite IH, <- app_assoc.
    + rewrite (Ht e eq_refl), IH, <- app_assoc. done.
Qed.

(** X14.  The enumerator of tables lists every table the listing names,
    in order: a table the service describes with its status, item count
    and size (N/A and 0 where the description lacks them), and a table
    whose description the service refuses with the status Unknown.  No
    table is left out on a refusal. *)
Theorem refused_tables_are_listed_as_unknown (self : detector)
    (response : option (list string)) :
  list_tables self = Ok response ->
  Forall (fun t => forall e, describe_table self t = Raise e -> is_ClientError e = true)
    (default [] response) ->
  detect_dynamodb_tables self = ([], Ok (map (table_record self) (default [] response)))
  /\ (forall t c, In t (default [] response) ->
        describe_table self t = Raise (ClientError c) ->
        In [("name", FStr t); ("status", FStr "Unknown")]
           (map (table_record self) (default [] response))).
Proof.
  intros Hl Hd. split.
  - unfold detect_dynamodb_tables. rewrite Hl. cbn [bind].
    by rewrite for_table_names_spec.
  - intros t c Hin Ht. apply in_map_iff. exists t. split; [|done].
    unfold table_record. by rewrite Ht.
Qed.

Lemma refused_tables_are_listed_as_unknown_witness :
  detect_dynamodb_tables example_account
  = ([], Ok [[("name", FStr "Activity"); ("status", FStr "ACTIVE");
              ("item_count", FInt 20); ("size_bytes", FInt 0)];
             [("name", FStr "Secret"); ("status", FStr "Unknown")]]).
Proof.
  destruct (refused_tables_are_listed_as_unknown example_account
              (Some ["Activity"; "Secret"]) eq_refl) as [H _].
  - repeat constructor; cbn; by intros e [= <-].
  - exact H.
Defined.

(** A table whose description fails otherwise ends the enumeration. *)
Lemma for_table_names_raises (self : detector) (before after : list string) (t : string)
    (e : exn) (tables : list resource) :
  Forall (fun t => forall e, describe_table self t = Raise e -> is_ClientError e = true)
    before ->
  describe_table self t = Raise e -> is_ClientError e = false ->
  for_table_names self (before ++ t :: after) tables = Raise e.
Proof.
  intros H Ht He. revert tables.
  induction H as [|t' names Ht' _ IH]; intros tables; cbn [for_table_names app].
  - by rewrite Ht, He.
  - destruct (describe_table self t') as [table|e']; [apply IH|].
    rewrite (Ht' e' eq_refl). apply IH.
Qed.

Lemma names_of_table_records (self : detector) (names : list string) :
  map (get "name") (map (table_record self) names) = map (fun n => Some (FStr n)) names.
Proof.
  induction names as [|t names IH]; [done|].
  cbn [map]. rewrite IH. f_equal.
  unfold table_record. by destruct (describe_table self t).
Qed.

Lemma for_table_names_names (self : detector) (names : list string)
    (tables recs : list resource) :
  for_table_names self names tables = Ok recs ->
  recs = tables ++ map (table_record self) names.
Proof.
  revert tables. induction names as [|t names IH]; intros tables; cbn [for_table_names map].
  - intros [= <-]. by rewrite app_nil_r.
  - unfold table_record at 1.
    destruct (describe_table self t) as [table|e].
    + intros H%IH. by rewrite H, <- app_assoc.
    + destruct (is_ClientError e); [|done]. intros H%IH. by rewrite H, <- app_assoc.
Qed.

Lemma for_table_names_error (self : detector) (names : list string)
    (tables : list resource) (e : exn) :
  for_table_names self names tables = Raise e -> is_ClientError e = false.
Proof.
  revert tables. induction names as [|t names IH]; intros tables; cbn [for_table_names].
  - done.
  - destruct (describe_table self t) as [table|e']; [apply IH|].
    destruct (is_ClientError e') eqn:He'; [apply IH|]. by intros [= <-].
Qed.

(** X15.  Whenever an enumerator returns records for a listing that was
    answered, it returns one record per resource listed, in the order
    listed, and the [name] of each record is the name of the resource. *)
Theorem one_record_per_listed_resource (self : detector) (k : kind)
    (recs : list resource) :
  (detect k self).2 = Ok recs ->
  listing_error self k = None ->
  map (get "name") recs = map (fun n => Some (FStr n)) (listing_names self k)
  /\ length recs = length (listing_names self k).
Proof.
  intros Hrecs Herr.
  assert (map (get "name") recs = map (fun n => Some (FStr n)) (listing_names self k))
    as Hnames.
  { destruct k; cbn [detect listing_error listing_names] in *.
    - unfold detect_lambda_functions in Hrecs.
      destruct (list_functions self) as [r|e]; [|done].
      cbn in Hrecs. injection Hrecs as <-. rewrite !map_map. done.
    - unfold detect_s3_buckets in Hrecs.
      destruct (list_buckets self) as [r|e]; [|done].
      cbn in Hrecs. injection Hrecs as <-. rewrite !map_map. done.
    - unfold detect_dynamodb_tables in Hrecs.
      destruct (list_tables self) as [r|e]; [|done].
      cbn [bind] in Hrecs. unfold except_ClientError in Hrecs.
      destruct (for_table_names self (default [] r) []) as [recs'|e] eqn:Hloop.
      + cbn in Hrecs. injection Hrecs as <-.
        apply for_table_names_names in Hloop as ->. apply names_of_table_records.
      + by rewrite (for_table_names_error _ _ _ _ Hloop) in Hrecs.
    - unfold detect_cloudformation_stacks in Hrecs.
      destruct (list_stacks self StackStatusFilter) as [r|e]; [|done].
      cbn in Hrecs. injection Hrecs as <-. rewrite !map_map. done.
    - unfold detect_api_gateways in Hrecs.
      destruct (get_rest_apis self) as [r|e]; [|done].
      cbn in Hrecs. injection Hrecs as <-. rewrite !map_map. done. }
  split; [exact Hnames|].
  by rewrite <- (length_map (get "name") recs), Hnames, length_map.
Qed.

Lemma one_record_per_listed_resource_witness :
  map (get "name") (found example_account dynamodb_tables)
  = [Some (FStr "Activity"); Some (FStr "Secret")]
  /\ length (found example_account dynamodb_tables) = 2.
Proof.
  exact (one_record_per_listed_resource example_account dynamodb_tables
           (found example_account dynamodb_tables) eq_refl eq_refl).
Defined.

(** *** The report *)

Lemma omap_fields {A} (f : report_line -> option A) (item : resource) :
  (forall k v, f (print_field k v) = None) ->
  omap f (flat_map (fun kv => if negb (String.eqb kv.1 "name")
                              then [print_field kv.1 kv.2] else []) item) = [].
Proof.
  intros H. induction item as [|[k v] item IH]; [done|].
  cbn [flat_map fst snd]. rewrite omap_app, IH, app_nil_r.
  destruct (negb (String.eqb k "name")); cbn; [by rewrite H|done].
Qed.

Lemma filter_fields (item : resource) :
  List.filter is_no_resources
    (flat_map (fun kv => if negb (String.eqb kv.1 "name")
                         then [print_field kv.1 kv.2] else []) item) = [].
Proof.
  induction item as [|[k v] item IH]; [done|].
  cbn [flat_map fst snd]. rewrite List.filter_app, IH, app_nil_r.
  by destruct (negb (String.eqb k "name")).
Qed.

Lemma for_enumerate_titles (idx : nat) (items : list resource) :
  omap title_of (for_enumerate idx items) = []
  /\ omap index_of (for_enumerate idx items) = seq idx (length items)
  /\ List.filter is_no_resources (for_enumerate idx items) = [].
Proof.
  revert idx. induction items as [|item items IH]; intros idx; [done|].
  destruct (IH (S idx)) as (IH1 & IH2 & IH3).
  cbn [for_enumerate length seq].
  rewrite !omap_app, List.filter_app, IH1, IH2, IH3, !app_nil_r.
  unfold print_one.
  change (print_item idx ?n :: ?l) with ([print_item idx n] ++ l).
  rewrite !omap_app, List.filter_app, !omap_fields, filter_fields by done.
  done.
Qed.

Lemma for_enumerate_keys (idx : nat) (items : list resource) :
  Forall (fun k => k <> "name") (omap field_key_of (for_enumerate idx items)).
Proof.
  revert idx. induction items as [|item items IH]; intros idx; [constructor|].
  cbn [for_enumerate]. rewrite omap_app. apply Forall_app. split; [|apply IH].
  unfold print_one.
  change (print_item idx ?n :: ?l) with ([print_item idx n] ++ l).
  rewrite omap_app. apply Forall_app. split; [constructor|].
  clear. induction item as [|[k v] item IHi]; [constructor|].
  cbn [flat_map fst snd]. rewrite omap_app. apply Forall_app. split; [|exact IHi].
  destruct (String.eqb_spec k "name"); cbn; repeat constructor. done.
Qed.

Lemma section_shape (t : string) (items : list resource) :
  omap title_of ([print_kind t (length items); print_dashes]
                   ++ match items with
                      | [] => [print_no_resources]
                      | _ :: _ => for_enumerate 1 items
                      end) = [(t, length items)]
  /\ omap index_of ([print_kind t (length items); print_dashes]
                      ++ match items with
                         | [] => [print_no_resources]
                         | _ :: _ => for_enumerate 1 items
                         end) = seq 1 (length items)
  /\ List.filter is_no_resources
       ([print_kind t (length items); print_dashes]
          ++ match items with
             | [] => [print_no_resources]
             | _ :: _ => for_enumerate 1 items
             end)
     = match items with [] => [print_no_resources] | _ :: _ => [] end
  /\ Forall (fun k => k <> "name")
       (omap field_key_of ([print_kind t (length items); print_dashes]
                             ++ match items with
                                | [] => [print_no_resources]
                                | _ :: _ => for_enumerate 1 items
                                end)).
Proof.
  rewrite !omap_app, List.filter_app.
  destruct items as [|item items]; [by split_and!; [..|constructor]|].
  destruct (for_enumerate_titles 1 (item :: items)) as (-> & -> & ->).
  split_and!; [done..|]. apply Forall_app. split; [constructor|apply for_enumerate_keys].
Qed.

(** X16.  The shape of a report, whatever it is given: one title line
    per resource type, in order, with the number of its items; the
    items of each type numbered from 1; the line that says no resource
    was found once for each type without items; and no field line for
    the key [name], which the item line shows. *)
Theorem report_shape (self : instance) (resources : list (string * list resource)) :
  omap title_of (print_resources self resources)
    = map (fun entry => (entry.1, length entry.2)) resources
  /\ omap index_of (print_resources self resources)
     = flat_map (fun entry => seq 1 (length entry.2)) resources
  /\ length (List.filter is_no_resources (print_resources self resources))
     = length (List.filter (fun entry => match entry.2 with [] => true | _ => false end)
                 resources)
  /\ Forall (fun k => k <> "name") (omap field_key_of (print_resources self resources)).
Proof.
  unfold print_resources. rewrite !omap_app, List.filter_app.
  change (omap title_of [print_banner; print_region (region self); print_banner]) with
    (@nil (string * nat)).
  change (omap index_of [print_banner; print_region (region self); print_banner]) with
    (@nil nat).
  change (omap field_key_of [print_banner; print_region (region self); print_banner]) with
    (@nil string).
  change (List.filter is_no_resources
            [print_banner; print_region (region self); print_banner]) with
    (@nil report_line).
  cbn [app].
  induction resources as [|[t items] resources (IH1 & IH2 & IH3 & IH4)];
    [by split_and!; [..|constructor]|].
  cbn [flat_map map fst snd List.filter].
  destruct (section_shape t items) as (H1 & H2 & H3 & H4).
  change (print_kind t (length items) :: print_dashes :: ?m)
    with ([print_kind t (length items); print_dashes] ++ m).
  set (sec := [print_kind t (length items); print_dashes] ++ _) in *.
  rewrite !omap_app, List.filter_app, length_app, H1, H2, H3, IH1, IH2, IH3.
  split_and!; [done|done| |by apply Forall_app].
  by destruct items.
Qed.

(** *** The entry point *)

Lemma enumerator_lines_app (a b : list printed) :
  enumerator_lines (a ++ b) = enumerator_lines a ++ enumerator_lines b.
Proof. apply omap_app. Qed.

Lemma enumerator_lines_by_enumerator (out : list line) :
  enumerator_lines (map by_enumerator out) = out.
Proof. induction out as [|l out IH]; [done|]. cbn. by f_equal. Qed.

Lemma enumerator_lines_by_report (out : list report_line) :
  enumerator_lines (map by_report out) = [].
Proof. by induction out. Qed.

Lemma report_lines_by_report (out : list report_line) :
  report_lines (map by_report out) = out.
Proof. induction out as [|l out IH]; [done|]. cbn. by f_equal. Qed.

Lemma report_lines_by_enumerator (out : list line) :
  report_lines (map by_enumerator out) = [].
Proof. by induction out. Qed.

Lemma enumerator_lines_handler (e : exn) : enumerator_lines [main_handler e] = [].
Proof. by destruct e. Qed.

(** The dictionary of line 209 runs the five enumerators as the
    aggregate does, and holds its results under the service names. *)
Lemma service_map_spec (self : detector) :
  match detect_all_resources self with
  | (out, Raise e) => service_map self = (out, Raise e)
  | (out, Ok resources) =>
      exists entries,
        service_map self = (out, Ok entries)
        /\ forall s k, chosen_kind s = Some k ->
             exists items,
               getitem (service_name s) entries = Ok (key k, items)
               /\ selection s resources = [(key k, items)]
  end.
Proof.
  unfold detect_all_resources, service_map, and_then.
  destruct (detect_lambda_functions self) as [o1 [r1|e1]]; [|done].
  destruct (detect_s3_buckets self) as [o2 [r2|e2]]; [|done].
  destruct (detect_dynamodb_tables self) as [o3 [r3|e3]]; [|done].
  destruct (detect_cloudformation_stacks self) as [o4 [r4|e4]]; [|done].
  destruct (detect_api_gateways self) as [o5 [r5|e5]]; [|done].
  eexists. split; [reflexivity|].
  intros s k Hk. destruct s; simplify_eq/=; eexists; by split.
Qed.

(** What [main] does, for every choice of [--service]. *)
Lemma main_spec (Session : option string -> option string -> result aws_session)
    (args : arguments) :
  match Session (arg_profile args) (arg_region args) with
  | Raise e => main Session args = ([main_handler e], 1%Z)
  | Ok s =>
      match detect_all_resources (account s) with
      | (out, Raise e) =>
          main Session args = (map by_enumerator out ++ [main_handler e], 1%Z)
      | (out, Ok resources) =>
          main Session args
          = (map by_enumerator out
               ++ map by_report
                    (print_resources
                       {| session := account s;
                          region := if truthy (arg_region args) then arg_region args
                                    else region_name s |}
                       (selection (arg_service args) resources)), 0%Z)
      end
  end.
Proof.
  unfold main, main_body, AWSResourceDetector.
  destruct (Session (arg_profile args) (arg_region args)) as [s|e]; [|done].
  cbn [bind session].
  pose proof (service_map_spec (account s)) as Hmap.
  destruct (detect_all_resources (account s)) as [out [resources|e]].
  - destruct Hmap as (entries & Hentries & Hsel).
    destruct (arg_service args) eqn:Hs; [..|done];
      rewrite Hentries;
      (edestruct Hsel as (items & -> & ->); [reflexivity|done]).
  - destruct (arg_service args); [..|done]; by rewrite Hmap.
Qed.

Lemma detect_all_resources_is_ok (self : detector) :
  is_ok (detect_all_resources self).2 = true
  <-> forall k, is_ok (detect k self).2 = true.
Proof.
  split.
  - intros H k. revert H. unfold detect_all_resources, and_then.
    destruct k; cbn [detect];
      destruct (detect_lambda_functions self) as [o1 [r1|e1]]; try done;
      destruct (detect_s3_buckets self) as [o2 [r2|e2]]; try done;
      destruct (detect_dynamodb_tables self) as [o3 [r3|e3]]; try done;
      destruct (detect_cloudformation_stacks self) as [o4 [r4|e4]]; try done;
      destruct (detect_api_gateways self) as [o5 [r5|e5]]; try done.
  - intros H.
    pose proof (H lambda_functions) as H1. pose proof (H s3_buckets) as H2.
    pose proof (H dynamodb_tables) as H3. pose proof (H cloudformation_stacks) as H4.
    pose proof (H api_gateways) as H5. cbn [detect] in *.
    unfold detect_all_resources, and_then.
    destruct (detect_lambda_functions self) as [o1 [r1|e1]]; [|done].
    destruct (detect_s3_buckets self) as [o2 [r2|e2]]; [|done].
    destruct (detect_dynamodb_tables self) as [o3 [r3|e3]]; [|done].
    destruct (detect_cloudformation_stacks self) as [o4 [r4|e4]]; [|done].
    by destruct (detect_api_gateways self) as [o5 [r5|e5]].
Qed.

(** X17.  The exit status of the detector is 0 or 1, and it is 0
    exactly when the session could be built and every one of the five
    enumerators returned, whichever service was asked for. *)
Theorem exit_status_is_zero_iff_every_enumerator_returns
    (Session : option string -> option string -> result aws_session) (args : arguments) :
  ((main Session args).2 = 0%Z \/ (main Session args).2 = 1%Z)
  /\ ((main Session args).2 = 0%Z
      <-> exists s, Session (arg_profile args) (arg_region args) = Ok s
                    /\ forall k, is_ok (detect k (account s)).2 = true).
Proof.
  pose proof (main_spec Session args) as Hmain.
  destruct (Session (arg_profile args) (arg_region args)) as [s|e].
  - pose proof (detect_all_resources_is_ok (account s)) as Hok.
    destruct (detect_all_resources (account s)) as [out [resources|e]];
      rewrite Hmain; cbn [snd] in *.
    + split; [by left|]. split; [|done]. intros _. exists s. split; [done|by apply Hok].
    + split; [by right|]. split; [done|].
      intros (s' & [= <-] & Hall). apply Hok in Hall. done.
  - rewrite Hmain. cbn. split; [by right|]. split; [done|]. by intros (s' & ? & _).
Qed.

(** X18.  Asking for one service runs the enumerators of all five: the
    lines the enumerators print and the exit status are those of the
    run for all services; when the run succeeds, the report is the one
    of that run cut down to the type asked for. *)
Theorem one_service_still_runs_every_enumerator
    (Session : option string -> option string -> result aws_session)
    (profile region : option string) (chosen : service) :
  enumerator_lines
    (main Session {| arg_profile := profile; arg_region := region;
                     arg_service := chosen |}).1
  = enumerator_lines
      (main Session {| arg_profile := profile; arg_region := region;
                       arg_service := service_all |}).1
  /\ (main Session {| arg_profile := profile; arg_region := region;
                      arg_service := chosen |}).2
     = (main Session {| arg_profile := profile; arg_region := region;
                        arg_service := service_all |}).2
  /\ (forall s out resources,
        Session profile region = Ok s ->
        detect_all_resources (account s) = (out, Ok resources) ->
        report_lines
          (main Session {| arg_profile := profile; arg_region := region;
                           arg_service := chosen |}).1
        = print_resources
            {| session := account s;
               region := if truthy region then region else region_name s |}
            (selection chosen resources)).
Proof.
  pose proof (main_spec Session {| arg_profile := profile; arg_region := region;
                                   arg_service := chosen |}) as H1.
  pose proof (main_spec Session {| arg_profile := profile; arg_region := region;
                                   arg_service := service_all |}) as H2.
  cbn [arg_profile arg_region arg_service] in *.
  destruct (Session profile region) as [s|e].
  - destruct (detect_all_resources (account s)) as [out [resources|e]] eqn:Hdet;
      rewrite H1, H2; cbn [fst snd];
      rewrite !enumerator_lines_app, !enumerator_lines_by_enumerator,
        ?enumerator_lines_by_report, ?enumerator_lines_handler.
    + split_and!; [done..|].
      intros s' out' resources' [= <-] Hd. rewrite Hdet in Hd. injection Hd as <- <-.
      unfold report_lines at 1. rewrite omap_app.
      fold (report_lines (map by_enumerator out)).
      rewrite report_lines_by_enumerator. apply report_lines_by_report.
    + split_and!; [done..|].
      intros s' out' resources' [= <-] Hd. by rewrite Hdet in Hd.
  - rewrite H1, H2. split_and!; [done..|]. by intros s out resources.
Qed.

Lemma one_service_still_runs_every_enumerator_witness :
  (main (example_session (failing s3_buckets (ClientError "AccessDenied")))
     {| arg_profile := Some "nuoa"; arg_region := None;
        arg_service := service_lambda |}).2 = 0%Z
  /\ enumerator_lines
       (main (example_session (failing s3_buckets (ClientError "AccessDenied")))
          {| arg_profile := Some "nuoa"; arg_region := None;
             arg_service := service_lambda |}).1
     = [print_s3_error (ClientError "AccessDenied")]
  /\ omap title_of (report_lines
       (main (example_session (failing s3_buckets (ClientError "AccessDenied")))
          {| arg_profile := Some "nuoa"; arg_region := None;
             arg_service := service_lambda |}).1)
     = [("lambda_functions", 1)]
  /\ (main (example_session (failing s3_buckets EndpointConnectionError))
        {| arg_profile := Some "nuoa"; arg_region := None;
           arg_service := service_lambda |})
     = ([print_unexpected EndpointConnectionError], 1%Z).
Proof.
  destruct (one_service_still_runs_every_enumerator
              (example_session (failing s3_buckets (ClientError "AccessDenied")))
              (Some "nuoa") None service_lambda) as (Hlines & Hexit & Hreport).
  rewrite (Hreport _ _ _ eq_refl eq_refl).
  split_and!; [by rewrite Hexit | by rewrite Hlines | reflexivity | reflexivity].
Defined.





End DetectAwsResourcesFacts.
